(** * IntTest, lab2: the user registry and the order registry

    A shallow embedding of the two HTTP services of [lab2]:

    - [user-service/main.go]: an in-memory map of users behind three routes;
    - [orders-service/main.go]: an in-memory map of orders, a client for the
      user service ([UserServiceClient.GetUserByID]) and the two handlers that
      call it ([getOrderByID], which tolerates a failing peer, and
      [createOrder], which does not).

    Conventions of the embedding.

    - Go's [int] is the 64-bit two's complement integer: a [Z] kept inside
      [GoInt.min .. GoInt.max], [nextID++] wraps.
    - A Go [map[int]T] is a [gmap Z T].  The order in which [range] visits a
      map is chosen by the runtime; it is an input of the handler that
      iterates ([Env.range]).
    - A handler is a function from the request, the environment of the call
      (what the network answers, how the runtime iterates) and the store to
      the response and the store afterwards.  The read/write lock only
      serialises the critical sections; each handler has at most one, so a
      handler is modelled as one atomic step.
    - [encoding/json] is modelled on parsed JSON values: a body is either not
      readable as one JSON value or a value of type [json]; decoding a value
      into a struct follows the rules of [json.Unmarshal] for the field
      types that occur ([int], [string], [*User]).
    - [Order.User] is a pointer that is only ever copied or replaced, never
      written through, so [option User] loses nothing. *)

From stdpp Require Import gmap strings list fin_maps pretty.
From Stdlib Require Import ZArith Lia Ascii Sorted.

Open Scope Z_scope.

Set Warnings "-register-all".

(** ** Go's [int] *)

Module GoInt.

Definition min : Z := - 2 ^ 63.
Definition max : Z := 2 ^ 63 - 1.

Definition in_range (z : Z) : bool := (min <=? z) && (z <=? max).

(** Two's complement wrap-around of a mathematical integer. *)
Definition wrap (z : Z) : Z := (z + 2 ^ 63) mod 2 ^ 64 - 2 ^ 63.

(** [n++] *)
Definition incr (n : Z) : Z := wrap (n + 1).

End GoInt.

(** ** [strconv] and [fmt]'s [%d] *)

Module Strconv.

(** [strconv.Itoa], also what [%d] prints for an [int]. *)
Definition Itoa (z : Z) : string := pretty z.

Definition digit (c : ascii) : option Z :=
  let n := Z.of_N (N_of_ascii c) in
  if (48 <=? n) && (n <=? 57) then Some (n - 48) else None.

Fixpoint digits (s : string) (acc : Z) : option Z :=
  match s with
  | EmptyString => Some acc
  | String c s' =>
      match digit c with
      | Some d => digits s' (acc * 10 + d)
      | None => None
      end
  end.

(** [strconv.Atoi]: an optional sign, then one or more decimal digits, the
    value inside the range of [int].  [None] stands for the two errors
    ([ErrSyntax], [ErrRange]) that the handlers do not tell apart. *)
Definition Atoi (s : string) : option Z :=
  let '(neg, ds) :=
    match s with
    | String "-"%char r => (true, r)
    | String "+"%char r => (false, r)
    | _ => (false, s)
    end in
  match ds with
  | EmptyString => None
  | _ =>
      match digits ds 0 with
      | Some n =>
          let v := if neg : bool then - n else n in
          if GoInt.in_range v then Some v else None
      | None => None
      end
  end.

(** [s[n:]] for [n <= len(s)]. *)
Fixpoint drop (n : nat) (s : string) : string :=
  match n, s with
  | O, _ => s
  | S n', String _ s' => drop n' s'
  | S _, EmptyString => EmptyString
  end.

End Strconv.

(** ** [encoding/json] on parsed values *)

Module Json.

(** A number literal: an integer literal, or a literal with a fraction or an
    exponent, kept as its text. *)
Inductive number :=
  | NInt (z : Z)
  | NReal (lit : string).

Inductive json :=
  | JNull
  | JBool (b : bool)
  | JNum (n : number)
  | JStr (s : string)
  | JArr (l : list json)
  | JObj (members : list (string * json)).

(** What a reader ([r.Body], [resp.Body]) holds: text from which the decoder
    cannot read one JSON value (the text of its error is [e]), or a value. *)
Inductive Stream :=
  | Unreadable (e : string)
  | Parsed (j : json).

(** The errors of [Decoder.Decode]: the reader's or the scanner's error, or
    an [UnmarshalTypeError]. *)
Inductive DecodeError :=
  | ReadError (e : string)
  | TypeError (value : string) (target : string).

Definition DecodeError_msg (e : DecodeError) : string :=
  match e with
  | ReadError e => e
  | TypeError value target =>
      "json: cannot unmarshal " +:+ value +:+ " into Go " +:+ target
  end.

(** Key matching.  A key selects the field whose name it equals, or else
    the field whose name it equals under Unicode simple case folding.  The
    field names here are ASCII; the only non-ASCII runes that fold to an
    ASCII letter are U+017F (to s) and U+212A (to k).  Strings are UTF-8
    byte sequences. *)
Definition upper (c : ascii) : ascii :=
  let n := N_of_ascii c in
  if ((97 <=? n) && (n <=? 122))%N then ascii_of_N (n - 32) else c.

Fixpoint fold (s : string) : string :=
  match s with
  | String "197"%char (String "191"%char r) => String "S"%char (fold r)
  | String "226"%char (String "132"%char (String "170"%char r)) =>
      String "K"%char (fold r)
  | String c r => String (upper c) (fold r)
  | EmptyString => EmptyString
  end.

Definition key_is (field key : string) : bool :=
  String.eqb key field || String.eqb (fold key) (fold field).

(** The error monad of the decoder and of the peer client. *)
Definition bind {A B E : Type} (m : A + E) (k : A -> B + E) : B + E :=
  match m with
  | inl a => k a
  | inr e => inr e
  end.

Notation "x <-! m ;; k" := (bind m (fun x => k))
  (at level 100, m at next level, right associativity).

(** How an [UnmarshalTypeError] names the kind of the offending value. *)
Definition kind (j : json) : string :=
  match j with
  | JNull => "null"
  | JBool _ => "bool"
  | JNum _ => "number"
  | JStr _ => "string"
  | JArr _ => "array"
  | JObj _ => "object"
  end.

(** Storing a value into an [int] field: [null] leaves it, an integer
    literal inside the range of [int] sets it, anything else is an
    [UnmarshalTypeError]. *)
Definition store_int (target : string) (j : json) (old : Z) : Z + DecodeError :=
  match j with
  | JNull => inl old
  | JNum (NInt z) =>
      if GoInt.in_range z then inl z
      else inr (TypeError ("number " +:+ Strconv.Itoa z) (target +:+ " of type int"))
  | JNum (NReal lit) =>
      inr (TypeError ("number " +:+ lit) (target +:+ " of type int"))
  | _ => inr (TypeError (kind j) (target +:+ " of type int"))
  end.

(** Storing a value into a [string] field. *)
Definition store_string (target : string) (j : json) (old : string)
  : string + DecodeError :=
  match j with
  | JNull => inl old
  | JStr s => inl s
  | _ => inr (TypeError (kind j) (target +:+ " of type string"))
  end.

(** Decoding an object into a struct: the members are stored one after the
    other, a later member overrides an earlier one, a key that selects no
    field is skipped. *)
Fixpoint store_members {T : Type} (set : T -> string -> json -> T + DecodeError)
    (ms : list (string * json)) (t : T) : T + DecodeError :=
  match ms with
  | [] => inl t
  | (k, v) :: ms' => t' <-! set t k v ;; store_members set ms' t'
  end.

(** Storing a value into a struct: [null] leaves it, an object is stored
    member by member, anything else is an [UnmarshalTypeError]. *)
Definition store_struct {T : Type} (set : T -> string -> json -> T + DecodeError)
    (target : string) (j : json) (t : T) : T + DecodeError :=
  match j with
  | JNull => inl t
  | JObj ms => store_members set ms t
  | _ => inr (TypeError (kind j) target)
  end.

(** [json.NewDecoder(body).Decode(&t)] *)
Definition Decode {T : Type} (set : T -> string -> json -> T + DecodeError)
    (target : string) (b : Stream) (t : T) : T + DecodeError :=
  match b with
  | Unreadable e => inr (ReadError e)
  | Parsed j => store_struct set target j t
  end.

(** The keys of an object that select the field named [field]. *)
Definition mentions (field : string) (j : json) : bool :=
  match j with
  | JObj ms => existsb (fun m => key_is field m.1) ms
  | _ => false
  end.

End Json.

(** ** [net/http]: requests, responses, the text error *)

Module Http.

Record Request := {
  Method : string;
  Path : string;      (* r.URL.Path *)
  Body : Json.Stream;   (* r.Body *)
}.

Inductive Payload :=
  | Text (s : string)
  | JSON (j : Json.json).  (* json.NewEncoder(w).Encode(v): the value, then a newline *)

(** [ContentType] is [None] where the handler sets none and [net/http]
    picks one from the first bytes written. *)
Record Response := {
  Status : Z;
  ContentType : option string;
  Sent : Payload;
}.

Definition StatusOK : Z := 200.
Definition StatusCreated : Z := 201.
Definition StatusBadRequest : Z := 400.
Definition StatusNotFound : Z := 404.
Definition StatusMethodNotAllowed : Z := 405.

(** [http.Error(w, msg, code)]: the status, the plain-text content type and
    the message followed by a newline. *)
Definition Error (msg : string) (code : Z) : Response :=
  {| Status := code;
     ContentType := Some "text/plain; charset=utf-8";
     Sent := Text (msg +:+ String "010"%char EmptyString) |}.

(** A handler that sets the JSON content type, optionally writes a status,
    and encodes a value. *)
Definition json_response (code : Z) (j : Json.json) : Response :=
  {| Status := code; ContentType := Some "application/json"; Sent := JSON j |}.

(** [http.NotFound], what the mux answers where no pattern matches. *)
Definition NotFound : Response := Error "404 page not found" StatusNotFound.

End Http.

(** ** [type User struct], declared with the same fields and tags in both
    packages *)

Module UserRecord.

Import Json.

Record User := {
  ID : Z;
  Name : string;
  Email : string;
}.

Definition zero : User := {| ID := 0; Name := ""; Email := "" |}.

(** The struct tags [json:"id"], [json:"name"], [json:"email"].  [path] is
    how an [UnmarshalTypeError] names the struct: [User.] at top level,
    [Order.user.] inside an order. *)
Definition set_field (path : string) (u : User) (key : string) (v : json)
  : User + DecodeError :=
  if key_is "id" key then
    x <-! store_int ("struct field " +:+ path +:+ "id") v (ID u) ;;
    inl {| ID := x; Name := Name u; Email := Email u |}
  else if key_is "name" key then
    x <-! store_string ("struct field " +:+ path +:+ "name") v (Name u) ;;
    inl {| ID := ID u; Name := x; Email := Email u |}
  else if key_is "email" key then
    x <-! store_string ("struct field " +:+ path +:+ "email") v (Email u) ;;
    inl {| ID := ID u; Name := Name u; Email := x |}
  else inl u.

(** [Decode(&user)] with [var user User]. *)
Definition decode (b : Stream) : User + DecodeError :=
  Decode (set_field "User.") "value of type main.User" b zero.

Definition encode (u : User) : json :=
  JObj [("id", JNum (NInt (ID u))); ("name", JStr (Name u));
        ("email", JStr (Email u))].

End UserRecord.

(** ** user-service/main.go *)

Module Users.

Import Json Http.
Import UserRecord.

Record Store := {
  users : gmap Z User;
  nextID : Z;
}.

(** The package-level variables at start-up. *)
Definition init : Store :=
  {| users :=
       <[1 := {| ID := 1; Name := "Самыл Самылыч"; Email := "player@example.com" |}]>
       (<[2 := {| ID := 2; Name := "Михаил Шаманя"; Email := "mishutka@example.com" |}]> ∅);
     nextID := 3 |}.

(** Encoding a [map[int]User]: an object whose keys are the decimal texts of
    the map's keys, sorted as strings. *)
Fixpoint insert_member (m : string * json) (l : list (string * json))
  : list (string * json) :=
  match l with
  | [] => [m]
  | x :: l' => if String.leb m.1 x.1 then m :: l else x :: insert_member m l'
  end.

Definition sort_members (l : list (string * json)) : list (string * json) :=
  foldr insert_member [] l.

Definition member (kv : Z * User) : string * json :=
  (Strconv.Itoa kv.1, encode kv.2).

Definition encode_map (m : gmap Z User) : json :=
  JObj (sort_members (member <$> map_to_list m)).

Definition getUsers (st : Store) : Response :=
  json_response StatusOK (encode_map (users st)).

Definition getUserByID (r : Request) (st : Store) : Response :=
  let idStr := Strconv.drop (String.length "/users/") (Path r) in
  match Strconv.Atoi idStr with
  | None => Error "Invalid user ID" StatusBadRequest
  | Some id =>
      match users st !! id with
      | None => Error "User not found" StatusNotFound
      | Some user => json_response StatusOK (encode user)
      end
  end.

Definition createUser (r : Request) (st : Store) : Response * Store :=
  match decode (Body r) with
  | inr err => (Error (DecodeError_msg err) StatusBadRequest, st)
  | inl newUser =>
      let newUser :=
        {| ID := nextID st; Name := Name newUser; Email := Email newUser |} in
      (json_response StatusCreated (encode newUser),
       {| users := <[nextID st := newUser]> (users st);
          nextID := GoInt.incr (nextID st) |})
  end.

Definition healthCheck : Response :=
  {| Status := StatusOK; ContentType := None; Sent := Text "OK" |}.

(** The three patterns registered in [main] on the default mux: [/users]
    and [/health] match that path only, [/users/] matches every path it
    is a prefix of.  The path is as the mux sees it, already cleaned. *)
Definition serve (r : Request) (st : Store) : Response * Store :=
  if String.eqb (Path r) "/users" then
    if String.eqb (Method r) "GET" then (getUsers st, st)
    else if String.eqb (Method r) "POST" then createUser r st
    else (Error "Method not allowed" StatusMethodNotAllowed, st)
  else if String.prefix "/users/" (Path r) then (getUserByID r st, st)
  else if String.eqb (Path r) "/health" then (healthCheck, st)
  else (NotFound, st).

(** A run of the service: the requests are served one after the other. *)
Fixpoint run (rs : list Request) (st : Store) : Store :=
  match rs with
  | [] => st
  | r :: rs' => run rs' (serve r st).2
  end.

End Users.

(** ** orders-service/main.go *)

Module Orders.

Import Json Http.
Import UserRecord.

Record Order := {
  ID : Z;
  UserID : Z;
  Product : string;
  Quantity : Z;
  Status : string;
  User : option UserRecord.User;
}.

Definition zero_order : Order :=
  {| ID := 0; UserID := 0; Product := ""; Quantity := 0; Status := "";
     User := None |}.

(** Storing a value into the [*User] field: [null] sets the pointer to nil,
    an object is stored into the user pointed to (a new zero [User] when
    the pointer is nil), anything else is an [UnmarshalTypeError]. *)
Definition store_user (v : json) (old : option UserRecord.User)
  : option UserRecord.User + DecodeError :=
  match v with
  | JNull => inl None
  | JObj ms =>
      u <-! store_members (set_field "Order.user.") ms (default UserRecord.zero old) ;;
      inl (Some u)
  | _ => inr (TypeError (kind v) "struct field Order.user of type main.User")
  end.

(** The struct tags of [Order]. *)
Definition set_order_field (o : Order) (key : string) (v : json)
  : Order + DecodeError :=
  if key_is "id" key then
    x <-! store_int "struct field Order.id" v (ID o) ;;
    inl {| ID := x; UserID := UserID o; Product := Product o;
           Quantity := Quantity o; Status := Status o; User := User o |}
  else if key_is "user_id" key then
    x <-! store_int "struct field Order.user_id" v (UserID o) ;;
    inl {| ID := ID o; UserID := x; Product := Product o;
           Quantity := Quantity o; Status := Status o; User := User o |}
  else if key_is "product" key then
    x <-! store_string "struct field Order.product" v (Product o) ;;
    inl {| ID := ID o; UserID := UserID o; Product := x;
           Quantity := Quantity o; Status := Status o; User := User o |}
  else if key_is "quantity" key then
    x <-! store_int "struct field Order.quantity" v (Quantity o) ;;
    inl {| ID := ID o; UserID := UserID o; Product := Product o;
           Quantity := x; Status := Status o; User := User o |}
  else if key_is "status" key then
    x <-! store_string "struct field Order.status" v (Status o) ;;
    inl {| ID := ID o; UserID := UserID o; Product := Product o;
           Quantity := Quantity o; Status := x; User := User o |}
  else if key_is "user" key then
    x <-! store_user v (User o) ;;
    inl {| ID := ID o; UserID := UserID o; Product := Product o;
           Quantity := Quantity o; Status := Status o; User := x |}
  else inl o.

(** [Decode(&newOrder)] with [var newOrder Order]. *)
Definition decode_order (b : Stream) : Order + DecodeError :=
  Decode set_order_field "value of type main.Order" b zero_order.

(** The [user] member is [omitempty]: left out when the pointer is nil. *)
Definition encode_order (o : Order) : json :=
  JObj ([("id", JNum (NInt (ID o))); ("user_id", JNum (NInt (UserID o)));
         ("product", JStr (Product o)); ("quantity", JNum (NInt (Quantity o)));
         ("status", JStr (Status o))]
        ++ match User o with
           | Some u => [("user", encode u)]
           | None => []
           end).

(** *** The client of the user service *)

Record UserServiceClient := {
  BaseURL : string;
  Timeout : Z;   (* Client.Timeout, in seconds *)
}.

(** What happens to one [GET url]: the request cannot be built
    ([http.NewRequestWithContext] fails), [Client.Do] fails, or a response
    arrives. *)
Inductive Exchange :=
  | NoRequest (e : string)
  | NoResponse (e : string)
  | Answer (StatusCode : Z) (body : Stream).

(** The errors [GetUserByID] returns, one constructor for each [return nil,
    ...] of the function, and the text [Error()] gives for each. *)
Inductive PeerError :=
  | ErrRequest (e : string)
  | ErrConnect (e : string)
  | ErrNotFound
  | ErrStatus (code : Z)
  | ErrDecode (e : DecodeError).

Definition PeerError_msg (e : PeerError) : string :=
  match e with
  | ErrRequest e => e
  | ErrConnect e => "failed to connect to user service: " +:+ e
  | ErrNotFound => "user not found"
  | ErrStatus code => "user service returned status: " +:+ Strconv.Itoa code
  | ErrDecode e => DecodeError_msg e
  end.

(** [GetUserByID]: the result is the pair [(&user, nil)] or [(nil, err)].
    The context only decides when a pending exchange is given up; the
    exchange that results is [net url]. *)
Definition GetUserByID (c : UserServiceClient) (net : string -> Exchange)
    (userID : Z) : UserRecord.User + PeerError :=
  let url := BaseURL c +:+ "/users/" +:+ Strconv.Itoa userID in
  match net url with
  | NoRequest err => inr (ErrRequest err)
  | NoResponse err => inr (ErrConnect err)
  | Answer StatusCode body =>
      if StatusCode =? StatusNotFound then inr ErrNotFound
      else if negb (StatusCode =? StatusOK) then inr (ErrStatus StatusCode)
      else
        match decode body with
        | inr err => inr (ErrDecode err)
        | inl user => inl user
        end
  end.

(** *** The store and the handlers *)

Record Store := {
  orders : gmap Z Order;
  nextID : Z;
}.

Definition init : Store :=
  {| orders :=
       <[1 := {| ID := 1; UserID := 1; Product := "Laptop"; Quantity := 1;
                 Status := "pending"; User := None |}]>
       (<[2 := {| ID := 2; UserID := 2; Product := "Mouse"; Quantity := 2;
                  Status := "shipped"; User := None |}]> ∅);
     nextID := 3 |}.

(** Port 8082 is the port [main] of this service listens on; the user
    service listens on 8081.  What answers at this address is an input of
    the model ([Env.net]), so no definition below depends on it. *)
Definition userClient : UserServiceClient :=
  {| BaseURL := "http://localhost:8082"; Timeout := 5 |}.

(** The bound of the child context of both handlers, in seconds.  The
    model has no clock: a call that is given up at a deadline is one of the
    exchanges without a response. *)
Definition enrichTimeout : Z := 3.

(** What a call of a handler depends on besides the request and the store:
    the network, and the order in which [range] visits a map. *)
Record Env := {
  net : string -> Exchange;
  range : gmap Z Order -> list (Z * Order);
}.

(** A [range] visits every entry of the map once. *)
Definition range_ok (env : Env) : Prop :=
  ∀ m, range env m ≡ₚ map_to_list m.

Definition getOrders (env : Env) (st : Store) : Response :=
  let ordersWithUsers := (λ kv, kv.2) <$> range env (orders st) in
  json_response StatusOK (JArr (encode_order <$> ordersWithUsers)).

Definition getOrderByID (env : Env) (r : Request) (st : Store) : Response :=
  let idStr := Strconv.drop (String.length "/orders/") (Path r) in
  match Strconv.Atoi idStr with
  | None => Error "Invalid order ID" StatusBadRequest
  | Some id =>
      match orders st !! id with
      | None => Error "Order not found" StatusNotFound
      | Some order =>
          let responseOrder :=
            match GetUserByID userClient (net env) (UserID order) with
            | inl user =>
                {| ID := ID order; UserID := UserID order;
                   Product := Product order; Quantity := Quantity order;
                   Status := Status order; User := Some user |}
            | inr _ => order   (* the error is logged *)
            end in
          json_response StatusOK (encode_order responseOrder)
      end
  end.

Definition createOrder (env : Env) (r : Request) (st : Store)
  : Response * Store :=
  match decode_order (Body r) with
  | inr err => (Error (DecodeError_msg err) StatusBadRequest, st)
  | inl newOrder =>
      match GetUserByID userClient (net env) (UserID newOrder) with
      | inr err =>
          (Error ("User not found or service unavailable: " +:+ PeerError_msg err)
             StatusBadRequest, st)
      | inl _ =>
          let newOrder :=
            {| ID := nextID st; UserID := UserID newOrder;
               Product := Product newOrder; Quantity := Quantity newOrder;
               Status := Status newOrder; User := User newOrder |} in
          (json_response StatusCreated (encode_order newOrder),
           {| orders := <[nextID st := newOrder]> (orders st);
              nextID := GoInt.incr (nextID st) |})
      end
  end.

Definition healthCheck : Response :=
  {| Http.Status := StatusOK; ContentType := None; Sent := Text "OK" |}.

(** The three patterns registered in [main]. *)
Definition serve (env : Env) (r : Request) (st : Store) : Response * Store :=
  if String.eqb (Path r) "/orders" then
    if String.eqb (Method r) "GET" then (getOrders env st, st)
    else if String.eqb (Method r) "POST" then createOrder env r st
    else (Error "Method not allowed" StatusMethodNotAllowed, st)
  else if String.prefix "/orders/" (Path r) then (getOrderByID env r st, st)
  else if String.eqb (Path r) "/health" then (healthCheck, st)
  else (NotFound, st).

(** A run of the service: each request is served in the environment it
    arrives in. *)
Fixpoint run (rs : list (Env * Request)) (st : Store) : Store :=
  match rs with
  | [] => st
  | (env, r) :: rs' => run rs' (serve env r st).2
  end.

End Orders.

(** ** Concrete environments and requests *)

Module Scenario.

Import Json Http.

(** The user service answers for user 1 and knows no other user. *)
Definition alice : Json.json :=
  JObj [("id", JNum (NInt 1)); ("name", JStr "Alice");
        ("email", JStr "alice@example.com")].

Definition peer_up : Orders.Env :=
  {| Orders.net := λ url,
       if String.eqb url "http://localhost:8082/users/1"
       then Orders.Answer 200 (Parsed alice)
       else Orders.Answer 404 (Unreadable "EOF");
     Orders.range := map_to_list |}.

(** Nothing listens at the address of the user service. *)
Definition peer_down : Orders.Env :=
  {| Orders.net := λ _, Orders.NoResponse "connection refused";
     Orders.range := map_to_list |}.

(** The user service answers 200 to every request, with an empty object. *)
Definition peer_any : Orders.Env :=
  {| Orders.net := λ _, Orders.Answer 200 (Parsed (JObj []));
     Orders.range := map_to_list |}.

Definition get (path : string) : Request :=
  {| Method := "GET"; Path := path; Body := Unreadable "EOF" |}.

Definition post (path : string) (j : Json.json) : Request :=
  {| Method := "POST"; Path := path; Body := Parsed j |}.

(** An order for user 1 whose payload brings its own [id] and [user]. *)
Definition with_snapshot : Json.json :=
  JObj [("id", JNum (NInt 77)); ("user_id", JNum (NInt 1));
        ("product", JStr "Pen"); ("quantity", JNum (NInt 1));
        ("status", JStr "pending");
        ("user", JObj [("id", JNum (NInt 9)); ("name", JStr "Mallory")])].

(** A payload without [user_id] whose [quantity] is a string. *)
Definition quantity_as_text : Json.json := JObj [("quantity", JStr "two")].

(** A payload with the owning user only. *)
Definition for_user_1 : Json.json := JObj [("user_id", JNum (NInt 1))].

(** A payload without [user_id]. *)
Definition product_only : Json.json := JObj [("product", JStr "Pen")].

Definition eve : Json.json := JObj [("id", JNum (NInt 50)); ("name", JStr "Eve")].

(** A body that breaks off. *)
Definition truncated (path : string) : Request :=
  {| Method := "POST"; Path := path; Body := Unreadable "unexpected EOF" |}.

End Scenario.

(** ** The vocabulary of the properties *)

Module Props.

Import Json Http.

(** A rejected request: the response carries a client-error status. *)
Definition rejected (resp : Response) : Prop := 400 <= Status resp < 500.

(** [sub] occurs in [s]. *)
Definition includes (s sub : string) : Prop :=
  ∃ before after, s = before +:+ sub +:+ after.

(** The message of a text response, without the newline [http.Error] adds. *)
Definition message (resp : Response) (msg : string) : Prop :=
  Sent resp = Text (msg +:+ String "010"%char EmptyString).

(** The texts that come from [net/http] and [encoding/json] rather than from
    this repository (the error of [NewRequestWithContext], the error of
    reading or scanning a body) are not the text of the not-found error. *)
Definition library_texts (x : Orders.Exchange) : Prop :=
  match x with
  | Orders.NoRequest e => e ≠ "user not found"
  | Orders.Answer _ (Unreadable e) => e ≠ "user not found"
  | _ => True
  end.

(** Every record is stored under its own id, below the counter. *)
Definition users_ids_ok (st : Users.Store) : Prop :=
  ∀ k u, Users.users st !! k = Some u →
         UserRecord.ID u = k ∧ k < Users.nextID st.

Definition orders_ids_ok (st : Orders.Store) : Prop :=
  ∀ k o, Orders.orders st !! k = Some o →
         Orders.ID o = k ∧ k < Orders.nextID st.

(** The order [createOrder] stores and returns for a decoded payload. *)
Definition stored_order (st : Orders.Store) (newOrder : Orders.Order)
  : Orders.Order :=
  {| Orders.ID := Orders.nextID st;
     Orders.UserID := Orders.UserID newOrder;
     Orders.Product := Orders.Product newOrder;
     Orders.Quantity := Orders.Quantity newOrder;
     Orders.Status := Orders.Status newOrder;
     Orders.User := Orders.User newOrder |}.

(** The record [createUser] stores and returns for a decoded payload. *)
Definition stored_user (st : Users.Store) (newUser : UserRecord.User)
  : UserRecord.User :=
  {| UserRecord.ID := Users.nextID st;
     UserRecord.Name := UserRecord.Name newUser;
     UserRecord.Email := UserRecord.Email newUser |}.

End Props.

Import Json Http Props.

(** ** The services next to each other, and what a store can be asked to keep *)

Module Wire.

Import Json Http.

(** The addresses [main] passes to [http.ListenAndServe]. *)
Definition users_addr : string := ":8081".
Definition orders_addr : string := ":8082".

(** The paths the mux hands to a handler as they are: a path that begins
    with a slash and has no empty segment (no [//]) and no segment [.] or
    [..]; a final slash is kept.  Every other path the mux answers itself,
    with a redirect to the cleaned path. *)
Inductive segment := Start | Dot | DotDot | Other.

Fixpoint scan (seg : segment) (s : string) : bool :=
  match s with
  | EmptyString =>
      match seg with
      | Dot | DotDot => false
      | Start | Other => true
      end
  | String c r =>
      if Ascii.eqb c "/" then
        match seg with
        | Other => scan Start r
        | Start | Dot | DotDot => false
        end
      else if Ascii.eqb c "." then
        scan match seg with
             | Start => Dot
             | Dot => DotDot
             | DotDot | Other => Other
             end r
      else scan Other r
  end.

Definition canonical (path : string) : bool :=
  match path with
  | String c r => Ascii.eqb c "/" && scan Start r
  | EmptyString => false
  end.

(** The request [GetUserByID] sends for a user id, as the handler that
    serves it sees it: method GET, the path [/users/%d], no body. *)
Definition lookup_path (id : Z) : string := "/users/" +:+ Strconv.Itoa id.

Definition lookup (id : Z) : Request :=
  {| Method := "GET"; Path := lookup_path id; Body := Unreadable "EOF" |}.

(** The network hands [resp] to the client that asked for [url]: the status
    as it is, and a JSON payload as the value that was encoded. *)
Definition carries (net : string -> Orders.Exchange) (url : string)
    (resp : Response) : Prop :=
  ∃ body, net url = Orders.Answer (Status resp) body
          ∧ ∀ j, Sent resp = JSON j → body = Parsed j.

(** One way to hand a response over: a text payload is a body the decoder
    cannot read. *)
Definition deliver (resp : Response) : Orders.Exchange :=
  Orders.Answer (Status resp)
    match Sent resp with
    | JSON j => Parsed j
    | Text s => Unreadable "invalid character"
    end.

End Wire.

Module Inv.

Import Json Http.

(** The [int] fields of a record hold values of [int]. *)
Definition user_ints (u : UserRecord.User) : bool :=
  GoInt.in_range (UserRecord.ID u).

Definition order_ints (o : Orders.Order) : bool :=
  GoInt.in_range (Orders.ID o) && GoInt.in_range (Orders.UserID o)
  && GoInt.in_range (Orders.Quantity o)
  && match Orders.User o with
     | Some u => user_ints u
     | None => true
     end.

(** The counter, the keys and the [int] fields of the records of a store
    hold values of [int]. *)
Definition users_ints (st : Users.Store) : Prop :=
  GoInt.in_range (Users.nextID st) = true
  ∧ ∀ k u, Users.users st !! k = Some u →
           GoInt.in_range k = true ∧ user_ints u = true.

Definition orders_ints (st : Orders.Store) : Prop :=
  GoInt.in_range (Orders.nextID st) = true
  ∧ ∀ k o, Orders.orders st !! k = Some o →
           GoInt.in_range k = true ∧ order_ints o = true.

(** The ids in use are exactly the ids from 1 up to the counter. *)
Definition users_dense (st : Users.Store) : Prop :=
  ∀ k, is_Some (Users.users st !! k) ↔ 1 <= k < Users.nextID st.

Definition orders_dense (st : Orders.Store) : Prop :=
  ∀ k, is_Some (Orders.orders st !! k) ↔ 1 <= k < Orders.nextID st.

(** No stored order carries a user. *)
Definition no_snapshot (st : Orders.Store) : Prop :=
  ∀ k o, Orders.orders st !! k = Some o → Orders.User o = None.

(** A request whose body has no key selecting the [user] field. *)
Definition plain (r : Request) : bool :=
  match Body r with
  | Parsed j => negb (mentions "user" j)
  | Unreadable _ => true
  end.

(** The object has a member with the key [key]. *)
Definition has_member (key : string) (j : json) : bool :=
  match j with
  | JObj ms => existsb (λ m, String.eqb m.1 key) ms
  | _ => false
  end.

End Inv.

(** ** Networks in which a service of this repository answers *)

Module Cases.

Import Json Http Wire.

(** The user service with store [ust] answers at [base]. *)
Definition users_at (base : string) (ust : Users.Store)
  : string -> Orders.Exchange :=
  λ url,
    deliver (Users.serve
               {| Method := "GET";
                  Path := Strconv.drop (String.length base) url;
                  Body := Unreadable "EOF" |} ust).1.

(** An order service with store [ost], its own peer unreachable, answers at
    [base]. *)
Definition orders_at (base : string) (ost : Orders.Store)
  : string -> Orders.Exchange :=
  λ url,
    deliver (Orders.serve Scenario.peer_down
               {| Method := "GET";
                  Path := Strconv.drop (String.length base) url;
                  Body := Unreadable "EOF" |} ost).1.

Definition env_of (net : string -> Orders.Exchange) : Orders.Env :=
  {| Orders.net := net; Orders.range := map_to_list |}.

(** A client for a user service on the user service's port. *)
Definition client_8081 : Orders.UserServiceClient :=
  {| Orders.BaseURL := "http://localhost:8081"; Orders.Timeout := 5 |}.

(** A payload for a new user. *)
Definition bob : Json.json :=
  JObj [("name", JStr "Bob"); ("email", JStr "bob@example.com")].

End Cases.

Import Wire Inv.

(** ** The model on concrete inputs *)

Example Atoi_cases :
  Strconv.Atoi "12" = Some 12 ∧ Strconv.Atoi "+7" = Some 7
  ∧ Strconv.Atoi "-3" = Some (-3) ∧ Strconv.Atoi "007" = Some 7
  ∧ Strconv.Atoi "" = None ∧ Strconv.Atoi "-" = None
  ∧ Strconv.Atoi "1/" = None ∧ Strconv.Atoi "1_0" = None
  ∧ Strconv.Atoi "9223372036854775807" = Some GoInt.max
  ∧ Strconv.Atoi "9223372036854775808" = None
  ∧ Strconv.Atoi "-9223372036854775808" = Some GoInt.min.
Proof. repeat split; reflexivity. Qed.

Example key_cases :
  key_is "user_id" "user_id" = true ∧ key_is "user_id" "User_ID" = true
  ∧ key_is "user_id" "uſer_id" = true ∧ key_is "user_id" "userid" = false
  ∧ key_is "user" "user_id" = false ∧ key_is "id" "user_id" = false.
Proof. repeat split; reflexivity. Qed.

Example decode_cases :
  Orders.decode_order (Parsed JNull) = inl Orders.zero_order
  ∧ Orders.decode_order
      (Parsed (JObj [("USER_ID", JNum (NInt 5)); ("user_id", JNum (NInt 6))]))
    = inl {| Orders.ID := 0; Orders.UserID := 6; Orders.Product := "";
             Orders.Quantity := 0; Orders.Status := ""; Orders.User := None |}
  ∧ Orders.decode_order (Parsed (JArr []))
    = inr (TypeError "array" "value of type main.Order")
  ∧ Orders.decode_order (Parsed (JObj [("user_id", JNum (NReal "1.5"))]))
    = inr (TypeError "number 1.5" "struct field Order.user_id of type int")
  ∧ Orders.decode_order
      (Parsed (JObj [("user", JObj [("id", JNum (NInt 9))]); ("user", JNull)]))
    = inl Orders.zero_order.
Proof. repeat split; reflexivity. Qed.

(** Scenarios A to D of the specification: the order of user 1 is fetched
    with the peer's user; with the peer answering 404 or unreachable it is
    fetched without one; an order for a user the peer does not know is
    refused. *)
Example scenario_A :
  (Orders.serve Scenario.peer_up (Scenario.get "/orders/1") Orders.init).1
  = json_response 200
      (JObj [("id", JNum (NInt 1)); ("user_id", JNum (NInt 1));
             ("product", JStr "Laptop"); ("quantity", JNum (NInt 1));
             ("status", JStr "pending"); ("user", Scenario.alice)]).
Proof. reflexivity. Qed.

Example scenario_B :
  (Orders.serve Scenario.peer_up (Scenario.get "/orders/2") Orders.init).1
  = json_response 200
      (JObj [("id", JNum (NInt 2)); ("user_id", JNum (NInt 2));
             ("product", JStr "Mouse"); ("quantity", JNum (NInt 2));
             ("status", JStr "shipped")]).
Proof. reflexivity. Qed.

Example scenario_C :
  (Orders.serve Scenario.peer_down (Scenario.get "/orders/1") Orders.init).1
  = json_response 200
      (JObj [("id", JNum (NInt 1)); ("user_id", JNum (NInt 1));
             ("product", JStr "Laptop"); ("quantity", JNum (NInt 1));
             ("status", JStr "pending")]).
Proof. reflexivity. Qed.

Example scenario_D :
  Orders.serve Scenario.peer_up
    (Scenario.post "/orders" (JObj [("user_id", JNum (NInt 42))])) Orders.init
  = (Error "User not found or service unavailable: user not found" 400,
     Orders.init).
Proof. reflexivity. Qed.

(** ** Integers, strings *)

Lemma incr_below_max n : GoInt.min <= n < GoInt.max → GoInt.incr n = n + 1.
Proof.
  unfold GoInt.incr, GoInt.wrap, GoInt.min, GoInt.max. intros H.
  rewrite Z.mod_small; lia.
Qed.

Lemma incr_at_max : GoInt.incr GoInt.max = GoInt.min.
Proof. reflexivity. Qed.

Lemma eqb_true s t : String.eqb s t = true → s = t.
Proof. apply String.eqb_eq. Qed.

Lemma prefix_orders_not_collection p :
  String.prefix "/orders/" p = true → String.eqb p "/orders" = false.
Proof.
  intros H. destruct (String.eqb p "/orders") eqn:E; [|done].
  apply eqb_true in E. subst p. discriminate H.
Qed.

Lemma prefix_users_not_collection p :
  String.prefix "/users/" p = true → String.eqb p "/users" = false.
Proof.
  intros H. destruct (String.eqb p "/users") eqn:E; [|done].
  apply eqb_true in E. subst p. discriminate H.
Qed.

Lemma append_empty s : s +:+ "" = s.
Proof.
  induction s as [|c s IH]; [done|].
  change (String c (s +:+ "") = String c s). by rewrite IH.
Qed.

Lemma includes_suffix a s : includes (a +:+ s) s.
Proof. exists a, "". by rewrite append_empty. Qed.

(** ** The routes *)

Lemma users_subpath m p b st :
  String.prefix "/users/" p = true →
  Users.serve {| Method := m; Path := p; Body := b |} st
  = (Users.getUserByID {| Method := m; Path := p; Body := b |} st, st).
Proof.
  intros H. unfold Users.serve. cbn [Path].
  by rewrite (prefix_users_not_collection _ H), H.
Qed.

Lemma orders_subpath env m p b st :
  String.prefix "/orders/" p = true →
  Orders.serve env {| Method := m; Path := p; Body := b |} st
  = (Orders.getOrderByID env {| Method := m; Path := p; Body := b |} st, st).
Proof.
  intros H. unfold Orders.serve. cbn [Path].
  by rewrite (prefix_orders_not_collection _ H), H.
Qed.

Lemma getUserByID_status r st :
  Status (Users.getUserByID r st) = 200
  ∨ Status (Users.getUserByID r st) = 400
  ∨ Status (Users.getUserByID r st) = 404.
Proof.
  unfold Users.getUserByID.
  destruct (Strconv.Atoi _); [destruct (_ !! _)|]; cbn; auto.
Qed.

Lemma getOrderByID_status env r st :
  Status (Orders.getOrderByID env r st) = 200
  ∨ Status (Orders.getOrderByID env r st) = 400
  ∨ Status (Orders.getOrderByID env r st) = 404.
Proof.
  unfold Orders.getOrderByID.
  destruct (Strconv.Atoi _); [destruct (_ !! _)|]; cbn; auto.
Qed.

Lemma users_405 r st :
  Status (Users.serve r st).1 = 405 → Path r = "/users".
Proof.
  unfold Users.serve.
  destruct (String.eqb (Path r) "/users") eqn:E; [intros _; by apply eqb_true|].
  destruct (String.prefix _ _).
  - cbn [fst]. destruct (getUserByID_status r st) as [H|[H|H]]; rewrite H; lia.
  - destruct (String.eqb (Path r) "/health"); intros H; vm_compute in H;
      discriminate.
Qed.

Lemma orders_405 env r st :
  Status (Orders.serve env r st).1 = 405 → Path r = "/orders".
Proof.
  unfold Orders.serve.
  destruct (String.eqb (Path r) "/orders") eqn:E; [intros _; by apply eqb_true|].
  destruct (String.prefix _ _).
  - cbn [fst]. destruct (getOrderByID_status env r st) as [H|[H|H]]; rewrite H; lia.
  - destruct (String.eqb (Path r) "/health"); intros H; vm_compute in H;
      discriminate.
Qed.

(** C9.  On either service a request to a path under the collection
    ([/users/...], [/orders/...]) is handled by the fetch-by-id handler
    whatever its method: two requests that differ only in the method get the
    same response and leave the same store, that response never has status
    405, and a 405 of either service is a response to its collection path. *)
Theorem C9_subpath_ignores_method :
  (∀ m1 m2 p b st,
      String.prefix "/users/" p = true →
      Users.serve {| Method := m1; Path := p; Body := b |} st
      = (Users.getUserByID {| Method := m2; Path := p; Body := b |} st, st)
      ∧ Status (Users.serve {| Method := m1; Path := p; Body := b |} st).1 ≠ 405)
  ∧ (∀ env m1 m2 p b st,
      String.prefix "/orders/" p = true →
      Orders.serve env {| Method := m1; Path := p; Body := b |} st
      = (Orders.getOrderByID env {| Method := m2; Path := p; Body := b |} st, st)
      ∧ Status (Orders.serve env {| Method := m1; Path := p; Body := b |} st).1 ≠ 405)
  ∧ (∀ r st, Status (Users.serve r st).1 = 405 → Path r = "/users")
  ∧ (∀ env r st, Status (Orders.serve env r st).1 = 405 → Path r = "/orders").
Proof.
  repeat split.
  - by rewrite users_subpath.
  - intros E. apply users_405 in E. cbn in E. subst p. discriminate.
  - by rewrite orders_subpath.
  - intros E. apply orders_405 in E. cbn in E. subst p. discriminate.
  - apply users_405.
  - apply orders_405.
Qed.

(** ** Rejections *)

Lemma createUser_cases r st :
  (Users.createUser r st).2 = st ∨ Status (Users.createUser r st).1 = 201.
Proof. unfold Users.createUser. destruct (UserRecord.decode _); cbn; auto. Qed.

Lemma createOrder_cases env r st :
  (Orders.createOrder env r st).2 = st
  ∨ Status (Orders.createOrder env r st).1 = 201.
Proof.
  unfold Orders.createOrder.
  destruct (Orders.decode_order _); [destruct (Orders.GetUserByID _ _ _)|];
    cbn; auto.
Qed.

Lemma users_serve_cases r st :
  (Users.serve r st).2 = st ∨ Status (Users.serve r st).1 = 201.
Proof.
  unfold Users.serve.
  repeat match goal with |- context [if ?c then _ else _] => destruct c end;
    cbn [snd]; auto using createUser_cases.
Qed.

Lemma orders_serve_cases env r st :
  (Orders.serve env r st).2 = st ∨ Status (Orders.serve env r st).1 = 201.
Proof.
  unfold Orders.serve.
  repeat match goal with |- context [if ?c then _ else _] => destruct c end;
    cbn [snd]; auto using createOrder_cases.
Qed.

(** C7.  A rejected request (a response with a 4xx status) leaves the map
    and the counter of the store as they were, on both services.  A
    malformed id and an undecodable body are answered 400 by a response that
    is the same whatever the store holds; an id that is not in the store is
    answered 404; in each case the store afterwards is the store before. *)
Theorem C7_rejected_leaves_store :
  (∀ r st, rejected (Users.serve r st).1 → (Users.serve r st).2 = st)
  ∧ (∀ env r st,
        rejected (Orders.serve env r st).1 → (Orders.serve env r st).2 = st)
  ∧ (∀ r st,
        String.prefix "/users/" (Path r) = true →
        Strconv.Atoi (Strconv.drop 7 (Path r)) = None →
        Users.serve r st = (Error "Invalid user ID" 400, st))
  ∧ (∀ env r st,
        String.prefix "/orders/" (Path r) = true →
        Strconv.Atoi (Strconv.drop 8 (Path r)) = None →
        Orders.serve env r st = (Error "Invalid order ID" 400, st))
  ∧ (∀ r st err,
        Path r = "/users" → Method r = "POST" →
        UserRecord.decode (Body r) = inr err →
        Users.serve r st = (Error (DecodeError_msg err) 400, st))
  ∧ (∀ env r st err,
        Path r = "/orders" → Method r = "POST" →
        Orders.decode_order (Body r) = inr err →
        Orders.serve env r st = (Error (DecodeError_msg err) 400, st))
  ∧ (∀ r st id,
        String.prefix "/users/" (Path r) = true →
        Strconv.Atoi (Strconv.drop 7 (Path r)) = Some id →
        Users.users st !! id = None →
        Users.serve r st = (Error "User not found" 404, st))
  ∧ (∀ env r st id,
        String.prefix "/orders/" (Path r) = true →
        Strconv.Atoi (Strconv.drop 8 (Path r)) = Some id →
        Orders.orders st !! id = None →
        Orders.serve env r st = (Error "Order not found" 404, st)).
Proof.
  repeat apply conj.
  - intros r st [H _]. destruct (users_serve_cases r st) as [E|E]; [done|].
    rewrite E in H. lia.
  - intros env r st [H _].
    destruct (orders_serve_cases env r st) as [E|E]; [done|].
    rewrite E in H. lia.
  - intros [m p b] st Hp Ha. cbn in *. rewrite users_subpath by done.
    unfold Users.getUserByID. cbn in *. by rewrite Ha.
  - intros env [m p b] st Hp Ha. cbn in *. rewrite orders_subpath by done.
    unfold Orders.getOrderByID. cbn in *. by rewrite Ha.
  - intros r st err Hp Hm Hd. unfold Users.serve, Users.createUser.
    by rewrite Hp, Hm, Hd.
  - intros env r st err Hp Hm Hd. unfold Orders.serve, Orders.createOrder.
    by rewrite Hp, Hm, Hd.
  - intros [m p b] st id Hp Ha Hl. cbn in *. rewrite users_subpath by done.
    unfold Users.getUserByID. cbn in *. by rewrite Ha, Hl.
  - intros env [m p b] st id Hp Ha Hl. cbn in *.
    rewrite orders_subpath by done.
    unfold Orders.getOrderByID. cbn in *. by rewrite Ha, Hl.
Qed.

(** ** Creating an order *)

Lemma createOrder_peer_error env r st o err :
  Orders.decode_order (Body r) = inl o →
  Orders.GetUserByID Orders.userClient (Orders.net env) (Orders.UserID o)
  = inr err →
  Orders.createOrder env r st
  = (Error ("User not found or service unavailable: "
            +:+ Orders.PeerError_msg err) 400, st).
Proof. intros Hd Hp. unfold Orders.createOrder. by rewrite Hd, Hp. Qed.

Lemma createOrder_peer_ok env r st o u :
  Orders.decode_order (Body r) = inl o →
  Orders.GetUserByID Orders.userClient (Orders.net env) (Orders.UserID o)
  = inl u →
  Orders.createOrder env r st
  = (json_response 201 (Orders.encode_order (stored_order st o)),
     {| Orders.orders := <[Orders.nextID st := stored_order st o]> (Orders.orders st);
        Orders.nextID := GoInt.incr (Orders.nextID st) |}).
Proof. intros Hd Hp. unfold Orders.createOrder. by rewrite Hd, Hp. Qed.

(** C4.  For a create-order request whose body decodes to [o]: if the
    client returns an error for [o]'s user id, the response is 400, its
    message is the fixed prefix followed by the text of that error (so it
    includes the cause), and the store is unchanged; if the client returns
    a user, the order is stored under the counter and returned with 201;
    and the response is 201 only if the client returned a user. *)
Theorem C4_create_order_needs_peer env r st o :
  Orders.decode_order (Body r) = inl o →
  let peer :=
    Orders.GetUserByID Orders.userClient (Orders.net env) (Orders.UserID o) in
  let res := Orders.createOrder env r st in
  (∀ err, peer = inr err →
     Status res.1 = 400
     ∧ message res.1 ("User not found or service unavailable: "
                      +:+ Orders.PeerError_msg err)
     ∧ (∃ msg, message res.1 msg ∧ includes msg (Orders.PeerError_msg err))
     ∧ res.2 = st)
  ∧ (∀ u, peer = inl u →
       res.1 = json_response 201 (Orders.encode_order (stored_order st o))
       ∧ Orders.orders res.2
         = <[Orders.nextID st := stored_order st o]> (Orders.orders st))
  ∧ (Status res.1 = 201 → ∃ u, peer = inl u).
Proof.
  intros Hd peer res. subst res.
  repeat apply conj.
  - intros err Hp. rewrite (createOrder_peer_error _ _ _ _ _ Hd Hp).
    repeat split.
    eexists. split; [reflexivity|].
    apply includes_suffix.
  - intros u Hp. by rewrite (createOrder_peer_ok _ _ _ _ _ Hd Hp).
  - destruct peer as [u|err] eqn:Hp; [by eauto|].
    rewrite (createOrder_peer_error _ _ _ _ _ Hd Hp). cbn. lia.
Qed.

(** ** The texts of the client's errors *)

Lemma connect_text_not_found e :
  Orders.PeerError_msg (Orders.ErrConnect e) ≠ "user not found".
Proof. intros H. vm_compute in H. discriminate H. Qed.

Lemma status_text_not_found code :
  Orders.PeerError_msg (Orders.ErrStatus code) ≠ "user not found".
Proof.
  unfold Orders.PeerError_msg. generalize (Strconv.Itoa code). intros s H.
  vm_compute in H. discriminate H.
Qed.

Lemma connect_text_not_status e code :
  Orders.PeerError_msg (Orders.ErrConnect e)
  ≠ Orders.PeerError_msg (Orders.ErrStatus code).
Proof.
  unfold Orders.PeerError_msg. generalize (Strconv.Itoa code). intros s H.
  vm_compute in H. discriminate H.
Qed.

Lemma type_error_text_not_found value target :
  DecodeError_msg (TypeError value target) ≠ "user not found".
Proof. intros H. vm_compute in H. discriminate H. Qed.

Lemma decode_text_not_found body err :
  (∀ e, body = Unreadable e → e ≠ "user not found") →
  UserRecord.decode body = inr err →
  DecodeError_msg err ≠ "user not found".
Proof.
  intros Hlib Hd. destruct err as [e|value target].
  - destruct body as [e'|j].
    + cbn in Hd. injection Hd as <-. by apply Hlib.
    + exfalso. revert Hd. unfold UserRecord.decode, Decode, store_struct.
      assert (∀ ms u, store_members (UserRecord.set_field "User.") ms u
                      ≠ inr (ReadError e)) as Hm.
      { induction ms as [|[k v] ms IH]; intros u; [done|]. cbn.
        unfold UserRecord.set_field, store_int, store_string.
        repeat match goal with
               | |- context [if ?c then _ else _] => destruct c
               | |- context [match ?x with _ => _ end] => destruct x
               end; cbn; try done; apply IH. }
      destruct j; try done. apply Hm.
  - apply type_error_text_not_found.
Qed.

(** C5.  Let [x] be what happens to the client's request.  Provided the
    texts that [net/http] and [encoding/json] produce are not "user not
    found": the error of [GetUserByID] reads exactly "user not found" if and
    only if a response with status 404 arrived; a response with another
    status than 200 gives the status error, whose text ends with the code; a
    transport failure gives the connection error; a 200 body that does not
    decode gives the decoder's error; and the three texts this client forms
    (not found, status, connection) are pairwise different. *)
Theorem C5_not_found_only_for_404 c net userID :
  let x := net (Orders.BaseURL c +:+ "/users/" +:+ Strconv.Itoa userID) in
  let res := Orders.GetUserByID c net userID in
  library_texts x →
  (∀ err, res = inr err →
     (Orders.PeerError_msg err = "user not found"
      ↔ ∃ body, x = Orders.Answer 404 body))
  ∧ (∀ body, x = Orders.Answer 404 body → res = inr Orders.ErrNotFound)
  ∧ (∀ code body,
       x = Orders.Answer code body → code ≠ 404 → code ≠ 200 →
       res = inr (Orders.ErrStatus code)
       ∧ includes (Orders.PeerError_msg (Orders.ErrStatus code))
                  (Strconv.Itoa code))
  ∧ (∀ e, x = Orders.NoResponse e → res = inr (Orders.ErrConnect e))
  ∧ (∀ body e,
       x = Orders.Answer 200 body → UserRecord.decode body = inr e →
       res = inr (Orders.ErrDecode e))
  ∧ (∀ e code,
       Orders.PeerError_msg (Orders.ErrConnect e) ≠ "user not found"
       ∧ Orders.PeerError_msg (Orders.ErrStatus code) ≠ "user not found"
       ∧ Orders.PeerError_msg (Orders.ErrConnect e)
         ≠ Orders.PeerError_msg (Orders.ErrStatus code)).
Proof.
  intros x res Hlib. subst res. unfold Orders.GetUserByID. fold x.
  repeat apply conj.
  - intros err. destruct x as [e|e|code body] eqn:Hx.
    + intros [= <-]. cbn in *. split; [done|]. by intros [? ?].
    + intros [= <-]. split; [|by intros [? ?]].
      intros H. by apply connect_text_not_found in H.
    + destruct (Z.eqb_spec code StatusNotFound) as [->|Hne].
      { intros [= <-]. split; [by eauto|done]. }
      assert (¬ ∃ b, Orders.Answer code body = Orders.Answer 404 b) as Hno.
      { intros [b [= ? ?]]. by apply Hne. }
      destruct (Z.eqb_spec code StatusOK) as [->|Hne2]; cbn [negb].
      * destruct (UserRecord.decode body) as [u|derr] eqn:Hd; [done|].
        intros [= <-]. split; [|done]. intros H. exfalso.
        revert H. apply (decode_text_not_found body); [|done].
        intros e ->. apply Hlib.
      * intros [= <-]. split; [|done].
        intros H. by apply status_text_not_found in H.
  - intros body ->. done.
  - intros code body -> H4 H2.
    destruct (Z.eqb_spec code StatusNotFound); [done|].
    destruct (Z.eqb_spec code StatusOK); [done|]. cbn [negb].
    split; [done|]. apply includes_suffix.
  - intros e ->. done.
  - intros body e -> Hd. cbn. by rewrite Hd.
  - intros e code.
    auto using connect_text_not_found, status_text_not_found,
      connect_text_not_status.
Qed.

(** ** A payload without the owning user's id *)

Ltac decode_step :=
  repeat match goal with
         | |- context [bind ?m _] => destruct m; cbn [bind]
         | |- context [if ?c then _ else _] => destruct c
         end.

Lemma set_order_field_user_id o k v o' :
  key_is "user_id" k = false →
  Orders.set_order_field o k v = inl o' →
  Orders.UserID o' = Orders.UserID o.
Proof.
  intros Hk. unfold Orders.set_order_field. rewrite Hk.
  decode_step; intros [= <-] || intros [=]; done.
Qed.

Lemma store_members_user_id ms : ∀ o o',
  existsb (λ m, key_is "user_id" m.1) ms = false →
  store_members Orders.set_order_field ms o = inl o' →
  Orders.UserID o' = Orders.UserID o.
Proof.
  induction ms as [|[k v] ms IH]; intros o o'; cbn.
  - by intros _ [= <-].
  - intros [Hk Hms]%orb_false_iff.
    destruct (Orders.set_order_field o k v) as [o1|e] eqn:E; cbn; [|done].
    intros H. rewrite (IH _ _ Hms H).
    by apply (set_order_field_user_id o k v).
Qed.

Lemma decode_order_user_id j o :
  mentions "user_id" j = false →
  Orders.decode_order (Parsed j) = inl o →
  Orders.UserID o = 0.
Proof.
  unfold Orders.decode_order, Decode, store_struct, mentions.
  destruct j; try done.
  - by intros _ [= <-].
  - intros Hm Hd. by rewrite (store_members_user_id _ _ _ Hm Hd).
Qed.

(** C10, as amended.  A POST /orders body that is a JSON value, has no key
    selecting the [user_id] field, and decodes as an order, decodes to an
    order owned by user 0; the client is asked for user 0, and the response
    is 201 if and only if that call returns a user.  (That the body decodes
    is needed: a JSON value that is not an object, or an object with a
    member of the wrong type, is answered 400 before the client is
    called.) *)
Theorem C10_missing_user_id_asks_for_zero env r st j o :
  Body r = Parsed j →
  mentions "user_id" j = false →
  Orders.decode_order (Body r) = inl o →
  let peer := Orders.GetUserByID Orders.userClient (Orders.net env) 0 in
  Orders.UserID o = 0
  ∧ Orders.createOrder env r st
    = match peer with
      | inr err =>
          (Error ("User not found or service unavailable: "
                  +:+ Orders.PeerError_msg err) 400, st)
      | inl _ =>
          (json_response 201 (Orders.encode_order (stored_order st o)),
           {| Orders.orders :=
                <[Orders.nextID st := stored_order st o]> (Orders.orders st);
              Orders.nextID := GoInt.incr (Orders.nextID st) |})
      end
  ∧ (Status (Orders.createOrder env r st).1 = 201 ↔ ∃ u, peer = inl u).
Proof.
  intros Hb Hm Hd peer.
  assert (Orders.UserID o = 0) as H0.
  { rewrite Hb in Hd. by apply decode_order_user_id in Hd. }
  assert (Orders.GetUserByID Orders.userClient (Orders.net env)
            (Orders.UserID o) = peer) as Hp by (by rewrite H0).
  split; [done|].
  destruct peer as [u|err] eqn:E.
  - rewrite (createOrder_peer_ok _ _ _ _ _ Hd Hp). split; [done|].
    split; [by eauto|done].
  - rewrite (createOrder_peer_error _ _ _ _ _ Hd Hp). split; [done|].
    cbn. split; [lia|]. by intros [? ?].
Qed.

(** C10, the claim as stated fails: this body is valid JSON without a
    [user_id] member, the lookup of user 0 succeeds, and the response is a
    400 from the decoder. *)
Lemma C10_counterexample :
  mentions "user_id" Scenario.quantity_as_text = false
  ∧ Orders.GetUserByID Orders.userClient (Orders.net Scenario.peer_any) 0
    = inl UserRecord.zero
  ∧ Orders.serve Scenario.peer_any
      (Scenario.post "/orders" Scenario.quantity_as_text) Orders.init
    = (Error "json: cannot unmarshal string into Go struct field Order.quantity of type int"
         400, Orders.init)
  ∧ ¬ (Status (Orders.serve Scenario.peer_any
                 (Scenario.post "/orders" Scenario.quantity_as_text)
                 Orders.init).1 = 201
       ↔ ∃ u, Orders.GetUserByID Orders.userClient
                (Orders.net Scenario.peer_any) 0 = inl u).
Proof.
  repeat apply conj; try reflexivity.
  intros [_ H]. specialize (H (ex_intro _ _ eq_refl)). vm_compute in H.
  discriminate H.
Qed.

(** ** Listing *)

Lemma insert_member_perm m l : Users.insert_member m l ≡ₚ m :: l.
Proof.
  induction l as [|x l IH]; cbn; [done|].
  destruct (String.leb _ _); [done|]. rewrite IH. apply Permutation_swap.
Qed.

Lemma sort_members_perm l : Users.sort_members l ≡ₚ l.
Proof.
  induction l as [|x l IH]; cbn; [done|].
  by rewrite insert_member_perm, IH.
Qed.

(** C2, as amended.  Whatever the stores hold: GET /orders answers 200 with
    a JSON array of the encoded orders, one for each entry of the map, in
    the order the runtime's iteration gives; GET /users answers 200 with a
    JSON object (not an array) that has one member for each entry of the
    map, keyed by the decimal text of the id, its value the encoded
    user. *)
Theorem C2_list_current_records env ost ust b :
  Orders.range_ok env →
  (∃ l,
      Orders.serve env {| Method := "GET"; Path := "/orders"; Body := b |} ost
      = (json_response 200 (JArr (Orders.encode_order <$> l)), ost)
      ∧ l ≡ₚ (λ kv, kv.2) <$> map_to_list (Orders.orders ost))
  ∧ (∃ ms,
      Users.serve {| Method := "GET"; Path := "/users"; Body := b |} ust
      = (json_response 200 (JObj ms), ust)
      ∧ ms ≡ₚ Users.member <$> map_to_list (Users.users ust)).
Proof.
  intros Hr. split.
  - eexists. split; [reflexivity|]. by rewrite (Hr (Orders.orders ost)).
  - eexists. split; [reflexivity|]. apply sort_members_perm.
Qed.

(** C2, the claim as stated fails for the user service: the list of the
    two users of start-up is a JSON object keyed by id, and no array. *)
Lemma C2_counterexample :
  Sent (Users.serve (Scenario.get "/users") Users.init).1
  = JSON (JObj
      [("1", JObj [("id", JNum (NInt 1)); ("name", JStr "Самыл Самылыч");
                   ("email", JStr "player@example.com")]);
       ("2", JObj [("id", JNum (NInt 2)); ("name", JStr "Михаил Шаманя");
                   ("email", JStr "mishutka@example.com")])])
  ∧ ¬ ∃ l, Sent (Users.serve (Scenario.get "/users") Users.init).1
           = JSON (JArr l).
Proof.
  split; [vm_compute; reflexivity|].
  intros [l H]. vm_compute in H. discriminate H.
Qed.

(** ** Identifiers *)

Lemma createUser_ok r st u :
  UserRecord.decode (Body r) = inl u →
  Users.createUser r st
  = (json_response 201 (UserRecord.encode (stored_user st u)),
     {| Users.users := <[Users.nextID st := stored_user st u]> (Users.users st);
        Users.nextID := GoInt.incr (Users.nextID st) |}).
Proof. intros Hd. unfold Users.createUser. by rewrite Hd. Qed.

(** One request: the store is kept, or one record is added under the
    counter and the counter is incremented. *)
Lemma users_serve_step r st :
  (Users.serve r st).2 = st
  ∨ ∃ u, (Users.serve r st).2
         = {| Users.users := <[Users.nextID st := stored_user st u]> (Users.users st);
              Users.nextID := GoInt.incr (Users.nextID st) |}.
Proof.
  unfold Users.serve.
  repeat match goal with |- context [if ?c then _ else _] => destruct c end;
    cbn [snd]; auto.
  unfold Users.createUser. destruct (UserRecord.decode _); cbn [snd]; eauto.
Qed.

Lemma orders_serve_step env r st :
  (Orders.serve env r st).2 = st
  ∨ ∃ o, (Orders.serve env r st).2
         = {| Orders.orders :=
                <[Orders.nextID st := stored_order st o]> (Orders.orders st);
              Orders.nextID := GoInt.incr (Orders.nextID st) |}.
Proof.
  unfold Orders.serve.
  repeat match goal with |- context [if ?c then _ else _] => destruct c end;
    cbn [snd]; auto.
  unfold Orders.createOrder.
  destruct (Orders.decode_order _); [destruct (Orders.GetUserByID _ _ _)|];
    cbn [snd]; eauto.
Qed.

Lemma users_step_inv r st :
  users_ids_ok st → GoInt.min <= Users.nextID st < GoInt.max →
  let st' := (Users.serve r st).2 in
  users_ids_ok st'
  ∧ Users.nextID st <= Users.nextID st' <= Users.nextID st + 1
  ∧ Users.users st ⊆ Users.users st'.
Proof.
  intros Hok Hb st'. subst st'.
  destruct (users_serve_step r st) as [->|[u ->]]; [split_and!; [done|lia..|done]|].
  cbn. rewrite incr_below_max by done.
  assert (Users.users st !! Users.nextID st = None) as Hfresh.
  { destruct (Users.users st !! Users.nextID st) as [u'|] eqn:E; [|done].
    apply Hok in E. lia. }
  split_and!; [|lia..|by apply insert_subseteq].
  intros k u' Hl. cbn in Hl.
  destruct (decide (Users.nextID st = k)) as [<-|Hne].
  - rewrite lookup_insert_eq in Hl. injection Hl as <-. cbn. lia.
  - rewrite lookup_insert_ne in Hl by done. apply Hok in Hl. cbn. lia.
Qed.

Lemma orders_step_inv env r st :
  orders_ids_ok st → GoInt.min <= Orders.nextID st < GoInt.max →
  let st' := (Orders.serve env r st).2 in
  orders_ids_ok st'
  ∧ Orders.nextID st <= Orders.nextID st' <= Orders.nextID st + 1
  ∧ Orders.orders st ⊆ Orders.orders st'.
Proof.
  intros Hok Hb st'. subst st'.
  destruct (orders_serve_step env r st) as [->|[o ->]];
    [split_and!; [done|lia..|done]|].
  cbn. rewrite incr_below_max by done.
  assert (Orders.orders st !! Orders.nextID st = None) as Hfresh.
  { destruct (Orders.orders st !! Orders.nextID st) as [o'|] eqn:E; [|done].
    apply Hok in E. lia. }
  split_and!; [|lia..|by apply insert_subseteq].
  intros k o' Hl. cbn in Hl.
  destruct (decide (Orders.nextID st = k)) as [<-|Hne].
  - rewrite lookup_insert_eq in Hl. injection Hl as <-. cbn. lia.
  - rewrite lookup_insert_ne in Hl by done. apply Hok in Hl. cbn. lia.
Qed.

Lemma users_run_inv rs : ∀ st,
  users_ids_ok st → GoInt.min <= Users.nextID st →
  Users.nextID st + Z.of_nat (length rs) <= GoInt.max →
  users_ids_ok (Users.run rs st)
  ∧ Users.nextID st <= Users.nextID (Users.run rs st)
    <= Users.nextID st + Z.of_nat (length rs)
  ∧ Users.users st ⊆ Users.users (Users.run rs st).
Proof.
  induction rs as [|r rs IH]; intros st Hok Hlo Hhi; cbn [Users.run].
  - cbn. split_and!; [done|lia..|done].
  - cbn [length] in Hhi.
    destruct (users_step_inv r st Hok) as (Hok' & Hn & Hsub); [lia|].
    destruct (IH _ Hok') as (Hok2 & Hn2 & Hsub2); [lia..|].
    split_and!; [done|lia|cbn [length]; lia|by etrans].
Qed.

Lemma orders_run_inv rs : ∀ st,
  orders_ids_ok st → GoInt.min <= Orders.nextID st →
  Orders.nextID st + Z.of_nat (length rs) <= GoInt.max →
  orders_ids_ok (Orders.run rs st)
  ∧ Orders.nextID st <= Orders.nextID (Orders.run rs st)
    <= Orders.nextID st + Z.of_nat (length rs)
  ∧ Orders.orders st ⊆ Orders.orders (Orders.run rs st).
Proof.
  induction rs as [|[env r] rs IH]; intros st Hok Hlo Hhi; cbn [Orders.run].
  - cbn. split_and!; [done|lia..|done].
  - cbn [length] in Hhi.
    destruct (orders_step_inv env r st Hok) as (Hok' & Hn & Hsub); [lia|].
    destruct (IH _ Hok') as (Hok2 & Hn2 & Hsub2); [lia..|].
    split_and!; [done|lia|cbn [length]; lia|by etrans].
Qed.

Lemma users_run_app rs1 rs2 st :
  Users.run (rs1 ++ rs2) st = Users.run rs2 (Users.run rs1 st).
Proof. revert st. induction rs1 as [|r rs1 IH]; intros st; cbn; auto. Qed.

Lemma orders_run_app rs1 rs2 st :
  Orders.run (rs1 ++ rs2) st = Orders.run rs2 (Orders.run rs1 st).
Proof.
  revert st. induction rs1 as [|[env r] rs1 IH]; intros st; cbn; auto.
Qed.

Lemma users_init_ok : users_ids_ok Users.init.
Proof.
  intros k u. unfold Users.init. cbn.
  rewrite !lookup_insert. repeat case_decide; subst; try done;
    intros [= <-]; cbn; lia.
Qed.

Lemma orders_init_ok : orders_ids_ok Orders.init.
Proof.
  intros k o. unfold Orders.init. cbn.
  rewrite !lookup_insert. repeat case_decide; subst; try done;
    intros [= <-]; cbn; lia.
Qed.

Lemma min_le_3 : GoInt.min <= 3.
Proof. unfold GoInt.min. lia. Qed.

Lemma ids_unique_users st k1 k2 u1 u2 :
  users_ids_ok st →
  Users.users st !! k1 = Some u1 → Users.users st !! k2 = Some u2 →
  UserRecord.ID u1 = UserRecord.ID u2 → k1 = k2.
Proof.
  intros Hok H1 H2 E. apply Hok in H1 as [<- _]. by apply Hok in H2 as [<- _].
Qed.

Lemma ids_unique_orders st k1 k2 o1 o2 :
  orders_ids_ok st →
  Orders.orders st !! k1 = Some o1 → Orders.orders st !! k2 = Some o2 →
  Orders.ID o1 = Orders.ID o2 → k1 = k2.
Proof.
  intros Hok H1 H2 E. apply Hok in H1 as [<- _]. by apply Hok in H2 as [<- _].
Qed.

Lemma users_next_fresh st :
  users_ids_ok st → Users.users st !! Users.nextID st = None.
Proof.
  intros Hok. destruct (Users.users st !! Users.nextID st) as [u|] eqn:E; [|done].
  apply Hok in E. lia.
Qed.

Lemma orders_next_fresh st :
  orders_ids_ok st → Orders.orders st !! Orders.nextID st = None.
Proof.
  intros Hok.
  destruct (Orders.orders st !! Orders.nextID st) as [o|] eqn:E; [|done].
  apply Hok in E. lia.
Qed.

(** C6.  In every run from start-up that is short enough for the counter
    to stay an [int] ([3 + n <= GoInt.max] for [n] requests), on either
    store: a successful create returns and stores the payload with its id
    replaced by the counter's value before the call, whatever id the
    payload carried, and leaves the counter exactly one higher; at every
    point of the run each record is stored under its own id below the
    counter, two entries never share an id, the id the counter will give
    next is not in use, and from any earlier point of the run to any later
    one the counter has not decreased and every record is still stored
    under its id. *)
Theorem C6_ids_from_counter :
  (∀ rs r u,
      3 + Z.of_nat (length (rs ++ [r])) <= GoInt.max →
      UserRecord.decode (Body r) = inl u →
      let st := Users.run rs Users.init in
      let res := Users.createUser r st in
      res.1 = json_response 201 (UserRecord.encode (stored_user st u))
      ∧ UserRecord.ID (stored_user st u) = Users.nextID st
      ∧ Users.users res.2
        = <[Users.nextID st := stored_user st u]> (Users.users st)
      ∧ Users.nextID res.2 = Users.nextID st + 1)
  ∧ (∀ rs env r o u,
      3 + Z.of_nat (length (rs ++ [(env, r)])) <= GoInt.max →
      Orders.decode_order (Body r) = inl o →
      Orders.GetUserByID Orders.userClient (Orders.net env) (Orders.UserID o)
      = inl u →
      let st := Orders.run rs Orders.init in
      let res := Orders.createOrder env r st in
      res.1 = json_response 201 (Orders.encode_order (stored_order st o))
      ∧ Orders.ID (stored_order st o) = Orders.nextID st
      ∧ Orders.orders res.2
        = <[Orders.nextID st := stored_order st o]> (Orders.orders st)
      ∧ Orders.nextID res.2 = Orders.nextID st + 1)
  ∧ (∀ rs1 rs2,
      3 + Z.of_nat (length (rs1 ++ rs2)) <= GoInt.max →
      let st1 := Users.run rs1 Users.init in
      let st2 := Users.run (rs1 ++ rs2) Users.init in
      users_ids_ok st2
      ∧ (∀ k1 k2 u1 u2,
           Users.users st2 !! k1 = Some u1 → Users.users st2 !! k2 = Some u2 →
           UserRecord.ID u1 = UserRecord.ID u2 → k1 = k2)
      ∧ Users.users st2 !! Users.nextID st2 = None
      ∧ Users.nextID st1 <= Users.nextID st2
      ∧ Users.users st1 ⊆ Users.users st2)
  ∧ (∀ rs1 rs2,
      3 + Z.of_nat (length (rs1 ++ rs2)) <= GoInt.max →
      let st1 := Orders.run rs1 Orders.init in
      let st2 := Orders.run (rs1 ++ rs2) Orders.init in
      orders_ids_ok st2
      ∧ (∀ k1 k2 o1 o2,
           Orders.orders st2 !! k1 = Some o1 → Orders.orders st2 !! k2 = Some o2 →
           Orders.ID o1 = Orders.ID o2 → k1 = k2)
      ∧ Orders.orders st2 !! Orders.nextID st2 = None
      ∧ Orders.nextID st1 <= Orders.nextID st2
      ∧ Orders.orders st1 ⊆ Orders.orders st2).
Proof.
  split_and!.
  - intros rs r u Hlen Hd st res. subst st res.
    rewrite length_app, Nat2Z.inj_add in Hlen. cbn [length] in Hlen.
    destruct (users_run_inv rs Users.init users_init_ok min_le_3)
      as (_ & Hn & _); [cbn; lia|].
    cbn [Users.nextID Users.init] in Hn. pose proof min_le_3.
    rewrite (createUser_ok _ _ _ Hd). cbn.
    by rewrite incr_below_max by lia.
  - intros rs env r o u Hlen Hd Hp st res. subst st res.
    rewrite length_app, Nat2Z.inj_add in Hlen. cbn [length] in Hlen.
    destruct (orders_run_inv rs Orders.init orders_init_ok min_le_3)
      as (_ & Hn & _); [cbn; lia|].
    cbn [Orders.nextID Orders.init] in Hn. pose proof min_le_3.
    rewrite (createOrder_peer_ok _ _ _ _ _ Hd Hp). cbn.
    by rewrite incr_below_max by lia.
  - intros rs1 rs2 Hlen st1 st2. subst st1 st2.
    rewrite length_app, Nat2Z.inj_add in Hlen. rewrite users_run_app.
    destruct (users_run_inv rs1 Users.init users_init_ok min_le_3)
      as (Hok1 & Hn1 & _); [cbn; lia|].
    cbn [Users.nextID Users.init] in Hn1.
    destruct (users_run_inv rs2 _ Hok1) as (Hok2 & Hn2 & Hsub);
      [pose proof min_le_3; lia|lia|].
    split_and!; [done| | |lia|done].
    + intros k1 k2 u1 u2. by apply ids_unique_users.
    + by apply users_next_fresh.
  - intros rs1 rs2 Hlen st1 st2. subst st1 st2.
    rewrite length_app, Nat2Z.inj_add in Hlen. rewrite orders_run_app.
    destruct (orders_run_inv rs1 Orders.init orders_init_ok min_le_3)
      as (Hok1 & Hn1 & _); [cbn; lia|].
    cbn [Orders.nextID Orders.init] in Hn1.
    destruct (orders_run_inv rs2 _ Hok1) as (Hok2 & Hn2 & Hsub);
      [pose proof min_le_3; lia|lia|].
    split_and!; [done| | |lia|done].
    + intros k1 k2 o1 o2. by apply ids_unique_orders.
    + by apply orders_next_fresh.
Qed.

(** ** Fetching one order *)

Lemma getOrderByID_absent env r st id :
  Strconv.Atoi (Strconv.drop 8 (Path r)) = Some id →
  Orders.orders st !! id = None →
  Orders.getOrderByID env r st = Error "Order not found" 404.
Proof.
  intros Ha Hl. unfold Orders.getOrderByID.
  change (String.length "/orders/") with 8%nat. by rewrite Ha, Hl.
Qed.

(** The peer returned a user: the order goes out with that user. *)
Lemma getOrderByID_enriched env r st id o u :
  Strconv.Atoi (Strconv.drop 8 (Path r)) = Some id →
  Orders.orders st !! id = Some o →
  Orders.GetUserByID Orders.userClient (Orders.net env) (Orders.UserID o)
  = inl u →
  Orders.getOrderByID env r st
  = json_response 200
      (Orders.encode_order
         {| Orders.ID := Orders.ID o; Orders.UserID := Orders.UserID o;
            Orders.Product := Orders.Product o;
            Orders.Quantity := Orders.Quantity o;
            Orders.Status := Orders.Status o; Orders.User := Some u |}).
Proof.
  intros Ha Hl Hp. unfold Orders.getOrderByID.
  change (String.length "/orders/") with 8%nat. by rewrite Ha, Hl, Hp.
Qed.

(** The peer returned an error: the order goes out as it is stored. *)
Lemma getOrderByID_degraded env r st id o err :
  Strconv.Atoi (Strconv.drop 8 (Path r)) = Some id →
  Orders.orders st !! id = Some o →
  Orders.GetUserByID Orders.userClient (Orders.net env) (Orders.UserID o)
  = inr err →
  Orders.getOrderByID env r st = json_response 200 (Orders.encode_order o).
Proof.
  intros Ha Hl Hp. unfold Orders.getOrderByID.
  change (String.length "/orders/") with 8%nat. by rewrite Ha, Hl, Hp.
Qed.

(** An order that is stored without a snapshot goes out without a [user]
    member when the peer fails. *)
Lemma getOrderByID_degraded_no_user env r st id o err :
  Strconv.Atoi (Strconv.drop 8 (Path r)) = Some id →
  Orders.orders st !! id = Some o →
  Orders.User o = None →
  Orders.GetUserByID Orders.userClient (Orders.net env) (Orders.UserID o)
  = inr err →
  ∃ ms, Orders.getOrderByID env r st = json_response 200 (JObj ms)
        ∧ existsb (λ m, String.eqb m.1 "user") ms = false.
Proof.
  intros Ha Hl Hs Hp. rewrite (getOrderByID_degraded _ _ _ _ _ _ Ha Hl Hp).
  unfold Orders.encode_order. rewrite Hs. eexists. split; reflexivity.
Qed.

(** C1, the code at the failing input.  With the user service answering for
    user 1, POST /orders with a payload that carries a [user] object is
    answered 201, the response shows that object, and the order is stored
    under id 3 with that object as its snapshot. *)
Theorem C1_payload_snapshot_is_stored :
  let r := Scenario.post "/orders" Scenario.with_snapshot in
  let res := Orders.serve Scenario.peer_up r Orders.init in
  let mallory :=
    {| UserRecord.ID := 9; UserRecord.Name := "Mallory"; UserRecord.Email := "" |} in
  let stored :=
    {| Orders.ID := 3; Orders.UserID := 1; Orders.Product := "Pen";
       Orders.Quantity := 1; Orders.Status := "pending";
       Orders.User := Some mallory |} in
  res.1 = json_response 201 (Orders.encode_order stored)
  ∧ Orders.orders res.2 !! 3 = Some stored
  ∧ Orders.User <$> Orders.orders res.2 !! 3 ≠ Some None.
Proof.
  intros r res mallory stored.
  assert (res = (json_response 201 (Orders.encode_order stored),
                 {| Orders.orders := <[3 := stored]> (Orders.orders Orders.init);
                    Orders.nextID := 4 |})) as -> by reflexivity.
  cbn [fst snd Orders.orders]. rewrite lookup_insert_eq. done.
Qed.

(** C3, the code at the failing input.  After the request of C1, with the
    user service unreachable, GET /orders/3 is answered 200 and the order in
    the response has a [user] member: the snapshot the payload brought. *)
Theorem C3_peer_error_shows_stored_snapshot :
  let st :=
    (Orders.serve Scenario.peer_up
       (Scenario.post "/orders" Scenario.with_snapshot) Orders.init).2 in
  let res := Orders.serve Scenario.peer_down (Scenario.get "/orders/3") st in
  Orders.GetUserByID Orders.userClient (Orders.net Scenario.peer_down) 1
  = inr (Orders.ErrConnect "connection refused")
  ∧ res.1
    = json_response 200
        (JObj [("id", JNum (NInt 3)); ("user_id", JNum (NInt 1));
               ("product", JStr "Pen"); ("quantity", JNum (NInt 1));
               ("status", JStr "pending");
               ("user", JObj [("id", JNum (NInt 9)); ("name", JStr "Mallory");
                              ("email", JStr "")])])
  ∧ res.2 = st.
Proof. intros st res. split_and!; vm_compute; reflexivity. Qed.

(** ** The theorems at concrete requests *)

Ltac evaluated := vm_compute; repeat split; congruence.

(** C2 at start-up, the iteration in the order of [map_to_list]. *)
Lemma C2_witness :
  Orders.range_ok Scenario.peer_up
  ∧ ((∃ l,
        Orders.serve Scenario.peer_up
          {| Method := "GET"; Path := "/orders"; Body := Unreadable "EOF" |}
          Orders.init
        = (json_response 200 (JArr (Orders.encode_order <$> l)), Orders.init)
        ∧ l ≡ₚ (λ kv, kv.2) <$> map_to_list (Orders.orders Orders.init))
     ∧ (∃ ms,
        Users.serve
          {| Method := "GET"; Path := "/users"; Body := Unreadable "EOF" |}
          Users.init
        = (json_response 200 (JObj ms), Users.init)
        ∧ ms ≡ₚ Users.member <$> map_to_list (Users.users Users.init))).
Proof.
  assert (Orders.range_ok Scenario.peer_up) as H by (intros m; reflexivity).
  split; [exact H|].
  exact (C2_list_current_records Scenario.peer_up Orders.init Users.init
           (Unreadable "EOF") H).
Defined.

(** C4 at a payload for user 1 while the user service is unreachable. *)
Lemma C4_witness :
  Orders.decode_order (Body (Scenario.post "/orders" Scenario.for_user_1))
  = inl {| Orders.ID := 0; Orders.UserID := 1; Orders.Product := "";
           Orders.Quantity := 0; Orders.Status := ""; Orders.User := None |}
  ∧ Orders.GetUserByID Orders.userClient (Orders.net Scenario.peer_down) 1
    = inr (Orders.ErrConnect "connection refused")
  ∧ Status (Orders.createOrder Scenario.peer_down
              (Scenario.post "/orders" Scenario.for_user_1) Orders.init).1
    = 400
  ∧ message (Orders.createOrder Scenario.peer_down
               (Scenario.post "/orders" Scenario.for_user_1) Orders.init).1
      "User not found or service unavailable: failed to connect to user service: connection refused"
  ∧ (Orders.createOrder Scenario.peer_down
       (Scenario.post "/orders" Scenario.for_user_1) Orders.init).2
    = Orders.init.
Proof.
  split; [reflexivity|]. split; [reflexivity|].
  pose proof (C4_create_order_needs_peer Scenario.peer_down
                (Scenario.post "/orders" Scenario.for_user_1) Orders.init _
                eq_refl) as (H & _ & _).
  destruct (H _ eq_refl) as (Hs & Hm & _ & Hst).
  split; [exact Hs|]. split; [exact Hm|exact Hst].
Defined.

(** C5 at the lookup of user 2, which the user service answers with 404. *)
Lemma C5_witness :
  library_texts
    (Orders.net Scenario.peer_up
       (Orders.BaseURL Orders.userClient +:+ "/users/" +:+ Strconv.Itoa 2))
  ∧ Orders.GetUserByID Orders.userClient (Orders.net Scenario.peer_up) 2
    = inr Orders.ErrNotFound.
Proof.
  assert (library_texts
            (Orders.net Scenario.peer_up
               (Orders.BaseURL Orders.userClient +:+ "/users/"
                +:+ Strconv.Itoa 2))) as H
    by (vm_compute; congruence).
  split; [exact H|].
  pose proof (C5_not_found_only_for_404 Orders.userClient
                (Orders.net Scenario.peer_up) 2 H) as (_ & H404 & _).
  exact (H404 (Unreadable "EOF") eq_refl).
Defined.

(** C6 at two creates on the user store of start-up. *)
Lemma C6_witness :
  3 + Z.of_nat (length ([Scenario.post "/users" Scenario.eve]
                        ++ [Scenario.post "/users" Scenario.eve]))
  <= GoInt.max
  ∧ UserRecord.decode (Body (Scenario.post "/users" Scenario.eve))
    = inl {| UserRecord.ID := 50; UserRecord.Name := "Eve"; UserRecord.Email := "" |}
  ∧ Users.nextID (Users.run [Scenario.post "/users" Scenario.eve] Users.init)
    <= Users.nextID
         (Users.run ([Scenario.post "/users" Scenario.eve]
                     ++ [Scenario.post "/users" Scenario.eve]) Users.init)
  ∧ Users.nextID
      (Users.createUser (Scenario.post "/users" Scenario.eve)
         (Users.run [Scenario.post "/users" Scenario.eve] Users.init)).2
    = Users.nextID (Users.run [Scenario.post "/users" Scenario.eve] Users.init)
      + 1.
Proof.
  pose proof C6_ids_from_counter as (Hu & _ & Hrun & _).
  assert (3 + Z.of_nat (length ([Scenario.post "/users" Scenario.eve]
                                ++ [Scenario.post "/users" Scenario.eve]))
          <= GoInt.max) as Hlen by (vm_compute; congruence).
  split; [exact Hlen|].
  split; [reflexivity|].
  split; [exact (proj1 (proj2 (proj2 (proj2 (Hrun _ _ Hlen)))))|].
  exact (proj2 (proj2 (proj2
           (Hu [Scenario.post "/users" Scenario.eve]
               (Scenario.post "/users" Scenario.eve) _ Hlen eq_refl)))).
Defined.

(** C7 at a create rejected for the peer, a malformed order id, a body that
    breaks off, and a user id that is not stored. *)
Lemma C7_witness :
  rejected (Orders.serve Scenario.peer_down
              (Scenario.post "/orders" Scenario.for_user_1) Orders.init).1
  ∧ (Orders.serve Scenario.peer_down
       (Scenario.post "/orders" Scenario.for_user_1) Orders.init).2
    = Orders.init
  ∧ String.prefix "/orders/" (Path (Scenario.get "/orders/1x")) = true
  ∧ Strconv.Atoi (Strconv.drop 8 (Path (Scenario.get "/orders/1x"))) = None
  ∧ Orders.serve Scenario.peer_up (Scenario.get "/orders/1x") Orders.init
    = (Error "Invalid order ID" 400, Orders.init)
  ∧ Path (Scenario.truncated "/users") = "/users"
  ∧ Method (Scenario.truncated "/users") = "POST"
  ∧ UserRecord.decode (Body (Scenario.truncated "/users"))
    = inr (ReadError "unexpected EOF")
  ∧ Users.serve (Scenario.truncated "/users") Users.init
    = (Error "unexpected EOF" 400, Users.init)
  ∧ String.prefix "/users/" (Path (Scenario.get "/users/99")) = true
  ∧ Strconv.Atoi (Strconv.drop 7 (Path (Scenario.get "/users/99"))) = Some 99
  ∧ Users.users Users.init !! 99 = None
  ∧ Users.serve (Scenario.get "/users/99") Users.init
    = (Error "User not found" 404, Users.init).
Proof.
  pose proof C7_rejected_leaves_store
    as (_ & Hrej & _ & Hid & Hbody & _ & Habsent & _).
  assert (rejected (Orders.serve Scenario.peer_down
            (Scenario.post "/orders" Scenario.for_user_1) Orders.init).1) as H1
    by evaluated.
  split; [exact H1|].
  split; [exact (Hrej _ _ _ H1)|].
  split; [reflexivity|]. split; [reflexivity|].
  split; [exact (Hid Scenario.peer_up (Scenario.get "/orders/1x") Orders.init
                   eq_refl eq_refl)|].
  split; [reflexivity|]. split; [reflexivity|]. split; [reflexivity|].
  split; [exact (Hbody (Scenario.truncated "/users") Users.init _
                   eq_refl eq_refl eq_refl)|].
  split; [reflexivity|]. split; [reflexivity|]. split; [reflexivity|].
  exact (Habsent (Scenario.get "/users/99") Users.init 99 eq_refl eq_refl eq_refl).
Defined.

(** C9 at DELETE /orders/1 and PUT /users. *)
Lemma C9_witness :
  String.prefix "/orders/" "/orders/1" = true
  ∧ Orders.serve Scenario.peer_up
      {| Method := "DELETE"; Path := "/orders/1"; Body := Unreadable "EOF" |}
      Orders.init
    = (Orders.getOrderByID Scenario.peer_up
         {| Method := "GET"; Path := "/orders/1"; Body := Unreadable "EOF" |}
         Orders.init, Orders.init)
  ∧ Status (Users.serve
              {| Method := "PUT"; Path := "/users"; Body := Unreadable "EOF" |}
              Users.init).1 = 405
  ∧ Path {| Method := "PUT"; Path := "/users"; Body := Unreadable "EOF" |}
    = "/users".
Proof.
  pose proof C9_subpath_ignores_method as (_ & Hsub & H405 & _).
  split; [reflexivity|].
  split; [exact (proj1 (Hsub Scenario.peer_up "DELETE" "GET" "/orders/1"
                          (Unreadable "EOF") Orders.init eq_refl))|].
  split; [reflexivity|].
  exact (H405 {| Method := "PUT"; Path := "/users"; Body := Unreadable "EOF" |}
           Users.init eq_refl).
Defined.

(** C10 at a payload with a product only, every user known to the peer. *)
Lemma C10_witness :
  Body (Scenario.post "/orders" Scenario.product_only)
  = Parsed Scenario.product_only
  ∧ mentions "user_id" Scenario.product_only = false
  ∧ Orders.decode_order (Body (Scenario.post "/orders" Scenario.product_only))
    = inl {| Orders.ID := 0; Orders.UserID := 0; Orders.Product := "Pen";
             Orders.Quantity := 0; Orders.Status := ""; Orders.User := None |}
  ∧ (Status (Orders.createOrder Scenario.peer_any
               (Scenario.post "/orders" Scenario.product_only) Orders.init).1
     = 201
     ↔ ∃ u, Orders.GetUserByID Orders.userClient
              (Orders.net Scenario.peer_any) 0 = inl u).
Proof.
  split; [reflexivity|]. split; [reflexivity|]. split; [reflexivity|].
  exact (proj2 (proj2 (C10_missing_user_id_asks_for_zero Scenario.peer_any
                         (Scenario.post "/orders" Scenario.product_only)
                         Orders.init _ _ eq_refl eq_refl eq_refl))).
Defined.

(** ** Printing an id and parsing it back *)

Lemma append_cons c s t : String c s +:+ t = String c (s +:+ t).
Proof. reflexivity. Qed.

Lemma append_assoc s t u : (s +:+ t) +:+ u = s +:+ (t +:+ u).
Proof.
  induction s as [|c s IH]; [done|]. rewrite !append_cons. by rewrite IH.
Qed.

Lemma digits_append s t : ∀ acc,
  Strconv.digits (s +:+ t) acc
  = match Strconv.digits s acc with
    | Some v => Strconv.digits t v
    | None => None
    end.
Proof.
  induction s as [|c s IH]; intros acc; [done|].
  rewrite append_cons. cbn [Strconv.digits].
  destruct (Strconv.digit c); [apply IH|done].
Qed.

Lemma pretty_N_go_append x : ∀ s, pretty_N_go x s = pretty_N_go x "" +:+ s.
Proof.
  induction (N.lt_wf_0 x) as [x _ IH]; intros s.
  destruct (decide (x = 0)%N) as [->|Hx]; [by rewrite !pretty_N_go_0|].
  assert (x `div` 10 < x)%N as Hlt by (apply N.div_lt; lia).
  rewrite !(pretty_N_go_step x) by lia.
  rewrite (IH _ Hlt (String _ s)), (IH _ Hlt (String _ "")).
  by rewrite append_assoc.
Qed.

Lemma digit_pretty_N_char d :
  (d < 10)%N → Strconv.digit (pretty_N_char d) = Some (Z.of_N d).
Proof.
  intros H.
  assert (d = 0 ∨ d = 1 ∨ d = 2 ∨ d = 3 ∨ d = 4 ∨ d = 5 ∨ d = 6 ∨ d = 7
          ∨ d = 8 ∨ d = 9)%N as Hd by lia.
  repeat destruct Hd as [->|Hd]; try subst d; reflexivity.
Qed.

Lemma digits_pretty_N_go x :
  Strconv.digits (pretty_N_go x "") 0 = Some (Z.of_N x).
Proof.
  induction (N.lt_wf_0 x) as [x _ IH].
  destruct (decide (x = 0)%N) as [->|Hx]; [done|].
  rewrite pretty_N_go_step, pretty_N_go_append, digits_append by lia.
  rewrite IH by (apply N.div_lt; lia). cbn [Strconv.digits].
  rewrite digit_pretty_N_char by (apply N.mod_lt; lia).
  f_equal. rewrite (N.div_mod x 10) at 3 by done. lia.
Qed.

(** A text that reads as a positive number begins with a digit, so [Atoi]
    takes it without a sign. *)
Lemma Atoi_unsigned s n :
  Strconv.digits s 0 = Some n → 0 < n → GoInt.in_range n = true →
  Strconv.Atoi s = Some n.
Proof.
  intros Hd Hn Hr. destruct s as [|c r]; [cbn in Hd; injection Hd; lia|].
  assert (Strconv.digit c ≠ None) as Hc.
  { cbn in Hd. by destruct (Strconv.digit c). }
  destruct c as [[] [] [] [] [] [] [] []];
    try (exfalso; apply Hc; reflexivity);
    unfold Strconv.Atoi; rewrite Hd; cbn; by rewrite Hr.
Qed.

Lemma Atoi_Itoa z : GoInt.in_range z = true → Strconv.Atoi (Strconv.Itoa z) = Some z.
Proof.
  intros Hr. unfold Strconv.Itoa, pretty, pretty_Z.
  destruct z as [|p|p]; [done|..].
  - apply Atoi_unsigned; [|lia|done].
    unfold pretty, pretty_positive, pretty, pretty_N.
    rewrite decide_False by done. apply digits_pretty_N_go.
  - unfold pretty, pretty_positive, pretty, pretty_N.
    rewrite decide_False by done. rewrite append_cons.
    change ("" +:+ ?s) with s.
    pose proof (digits_pretty_N_go (N.pos p)) as Hd.
    unfold Strconv.Atoi.
    destruct (pretty_N_go (N.pos p) "") as [|c r] eqn:E;
      [cbn in Hd; injection Hd; lia|].
    rewrite Hd. cbn [Z.of_N]. change (- Z.pos p) with (Z.neg p).
    by rewrite Hr.
Qed.

Lemma drop_append s t : Strconv.drop (String.length s) (s +:+ t) = t.
Proof. induction s as [|c s IH]; [done|]. rewrite append_cons. cbn. apply IH. Qed.

Lemma prefix_append s t : String.prefix s (s +:+ t) = true.
Proof.
  induction s as [|c s IH]; [by destruct t|].
  rewrite append_cons. cbn. destruct (ascii_dec c c); [apply IH|done].
Qed.

Lemma users_fetch_printed id m b st :
  GoInt.in_range id = true →
  Users.serve {| Method := m; Path := "/users/" +:+ Strconv.Itoa id; Body := b |} st
  = (match Users.users st !! id with
     | Some user => json_response 200 (UserRecord.encode user)
     | None => Error "User not found" 404
     end, st).
Proof.
  intros Hr. rewrite users_subpath by apply prefix_append.
  unfold Users.getUserByID. cbn [Path].
  rewrite drop_append, Atoi_Itoa by done. by destruct (_ !! _).
Qed.

Lemma orders_fetch_printed id env m b st :
  GoInt.in_range id = true →
  Orders.serve env
    {| Method := m; Path := "/orders/" +:+ Strconv.Itoa id; Body := b |} st
  = (match Orders.orders st !! id with
     | Some order =>
         json_response 200
           (Orders.encode_order
              match Orders.GetUserByID Orders.userClient (Orders.net env)
                      (Orders.UserID order) with
              | inl user =>
                  {| Orders.ID := Orders.ID order;
                     Orders.UserID := Orders.UserID order;
                     Orders.Product := Orders.Product order;
                     Orders.Quantity := Orders.Quantity order;
                     Orders.Status := Orders.Status order;
                     Orders.User := Some user |}
              | inr _ => order
              end)
     | None => Error "Order not found" 404
     end, st).
Proof.
  intros Hr. rewrite orders_subpath by apply prefix_append.
  unfold Orders.getOrderByID. cbn [Path].
  rewrite drop_append, Atoi_Itoa by done. by destruct (_ !! _).
Qed.

(** X1.  Fetch-by-id at the path that [%d] prints for an id looks that id
    up: on the user service and on the order service, whatever the method,
    the path [/users/] or [/orders/] followed by the decimal text of an
    [int] is answered with the record stored under that [int], or with 404
    when there is none, and the store is kept. *)
Theorem X1_fetch_at_printed_id id :
  GoInt.in_range id = true →
  (∀ m b st,
      Users.serve {| Method := m; Path := "/users/" +:+ Strconv.Itoa id; Body := b |} st
      = (match Users.users st !! id with
         | Some user => json_response 200 (UserRecord.encode user)
         | None => Error "User not found" 404
         end, st))
  ∧ (∀ env m b st,
      Orders.serve env
        {| Method := m; Path := "/orders/" +:+ Strconv.Itoa id; Body := b |} st
      = (match Orders.orders st !! id with
         | Some order =>
             json_response 200
               (Orders.encode_order
                  match Orders.GetUserByID Orders.userClient (Orders.net env)
                          (Orders.UserID order) with
                  | inl user =>
                      {| Orders.ID := Orders.ID order;
                         Orders.UserID := Orders.UserID order;
                         Orders.Product := Orders.Product order;
                         Orders.Quantity := Orders.Quantity order;
                         Orders.Status := Orders.Status order;
                         Orders.User := Some user |}
                  | inr _ => order
                  end)
         | None => Error "Order not found" 404
         end, st)).
Proof.
  intros Hr. split.
  - intros. by apply users_fetch_printed.
  - intros. by apply orders_fetch_printed.
Qed.

(** ** What is encoded decodes to the same record *)

Lemma decode_encode_user u :
  user_ints u = true → UserRecord.decode (Parsed (UserRecord.encode u)) = inl u.
Proof.
  unfold user_ints. intros Hr. destruct u as [id name email]. cbn in Hr.
  unfold UserRecord.decode, UserRecord.encode, Decode, store_struct.
  cbn. by rewrite Hr.
Qed.

Lemma decode_encode_order o :
  order_ints o = true →
  Orders.decode_order (Parsed (Orders.encode_order o)) = inl o.
Proof.
  unfold order_ints, user_ints.
  destruct o as [id uid product quantity status [[id' name email]|]];
    cbn [Orders.ID Orders.UserID Orders.Quantity Orders.User UserRecord.ID];
    intros [[[H1 H2]%andb_true_iff H3]%andb_true_iff H4]%andb_true_iff;
    unfold Orders.decode_order, Orders.encode_order, Decode, store_struct;
    cbn; rewrite H1; cbn;
    repeat (unfold Orders.set_order_field at 1, Orders.store_user,
              UserRecord.set_field;
            cbn; rewrite ?H2, ?H3, ?H4; cbn);
    done.
Qed.

(** X2.  A record whose [int] fields hold [int]s survives the JSON round
    trip: decoding the encoding of a user gives that user, and decoding the
    encoding of an order gives that order, with its user snapshot when it
    has one and without one when it has none. *)
Theorem X2_decode_encode :
  (∀ u, user_ints u = true →
        UserRecord.decode (Parsed (UserRecord.encode u)) = inl u)
  ∧ (∀ o, order_ints o = true →
          Orders.decode_order (Parsed (Orders.encode_order o)) = inl o).
Proof. split; [apply decode_encode_user|apply decode_encode_order]. Qed.

(** ** The client *)

(** X8.  [GetUserByID] returns a user exactly when a response with status
    200 arrived whose body decodes, and the user is what the body decodes
    to; every other status, 201 and 204 included, is an error. *)
Theorem X8_client_success c net userID u :
  Orders.GetUserByID c net userID = inl u
  ↔ ∃ body,
      net (Orders.BaseURL c +:+ "/users/" +:+ Strconv.Itoa userID)
      = Orders.Answer 200 body
      ∧ UserRecord.decode body = inl u.
Proof.
  unfold Orders.GetUserByID. split.
  - destruct (net _) as [e|e|code body]; [done..|].
    destruct (Z.eqb_spec code StatusNotFound); [done|].
    destruct (Z.eqb_spec code StatusOK) as [->|]; [|done]. cbn.
    destruct (UserRecord.decode body) eqn:E; [|done].
    intros [= <-]. by exists body.
  - intros (body & -> & Hd). cbn. by rewrite Hd.
Qed.


(** ** The client in front of a service *)

Lemma users_lookup id st :
  GoInt.in_range id = true →
  (Users.serve (lookup id) st).1
  = match Users.users st !! id with
    | Some user => json_response 200 (UserRecord.encode user)
    | None => Error "User not found" 404
    end.
Proof.
  intros Hr. unfold lookup, lookup_path. by rewrite users_fetch_printed.
Qed.

Lemma client_of_user_service c net ust id :
  GoInt.in_range id = true →
  (∀ u, Users.users ust !! id = Some u → user_ints u = true) →
  carries net (Orders.BaseURL c +:+ lookup_path id)
          (Users.serve (lookup id) ust).1 →
  Orders.GetUserByID c net id
  = match Users.users ust !! id with
    | Some u => inl u
    | None => inr Orders.ErrNotFound
    end.
Proof.
  intros Hr Hints (body & Hnet & Hbody). rewrite users_lookup in * by done.
  unfold Orders.GetUserByID. fold (lookup_path id). rewrite Hnet.
  destruct (Users.users ust !! id) as [u|]; [|done]. cbn.
  rewrite (Hbody _ eq_refl). by rewrite decode_encode_user by auto.
Qed.

(** X3.  A client whose requests are answered by a user service gets that
    service's record: if the network carries the response of the user
    service to the lookup of [id] back to the client, [GetUserByID] returns
    the user stored under [id], and the not-found error when none is
    stored. *)
Theorem X3_client_of_user_service c net ust id :
  GoInt.in_range id = true →
  (∀ u, Users.users ust !! id = Some u → user_ints u = true) →
  carries net (Orders.BaseURL c +:+ lookup_path id)
          (Users.serve (lookup id) ust).1 →
  Orders.GetUserByID c net id
  = match Users.users ust !! id with
    | Some u => inl u
    | None => inr Orders.ErrNotFound
    end.
Proof. apply client_of_user_service. Qed.

Lemma orders_serve_lookup env id st :
  Orders.serve env (lookup id) st = (NotFound, st).
Proof. reflexivity. Qed.

(** X4.  The address in [userClient] is the address the order service
    itself listens on, not the user service's.  When the client's requests
    arrive there, that is at an order service, every lookup is answered 404
    by the mux, so [GetUserByID] returns the not-found error for every id,
    every POST /orders is answered 400 and stores nothing, and every order
    is fetched as it is stored, without a user from the peer. *)
Theorem X4_client_at_own_address :
  Orders.BaseURL Orders.userClient = "http://localhost" +:+ orders_addr
  ∧ Orders.BaseURL Orders.userClient ≠ "http://localhost" +:+ users_addr
  ∧ ∀ env env' st',
      (∀ id, carries (Orders.net env)
               (Orders.BaseURL Orders.userClient +:+ lookup_path id)
               (Orders.serve env' (lookup id) st').1) →
      (∀ id, Orders.GetUserByID Orders.userClient (Orders.net env) id
             = inr Orders.ErrNotFound)
      ∧ (∀ m b st,
           Status (Orders.serve env
                     {| Method := m; Path := "/orders"; Body := b |} st).1
           ≠ 201
           ∧ (Orders.serve env
                {| Method := m; Path := "/orders"; Body := b |} st).2 = st)
      ∧ (∀ r st, Status (Orders.createOrder env r st).1 = 400)
      ∧ (∀ r st id o,
           Strconv.Atoi (Strconv.drop 8 (Path r)) = Some id →
           Orders.orders st !! id = Some o →
           Orders.getOrderByID env r st
           = json_response 200 (Orders.encode_order o)).
Proof.
  split; [reflexivity|]. split; [discriminate|].
  intros env env' st' Hown.
  assert (∀ id, Orders.GetUserByID Orders.userClient (Orders.net env) id
                = inr Orders.ErrNotFound) as Hnf.
  { intros id. destruct (Hown id) as (body & Hnet & _).
    rewrite orders_serve_lookup in Hnet.
    unfold Orders.GetUserByID. fold (lookup_path id). by rewrite Hnet. }
  assert (∀ r st, Status (Orders.createOrder env r st).1 = 400) as H400.
  { intros r st. unfold Orders.createOrder.
    destruct (Orders.decode_order _); [|done]. by rewrite Hnf. }
  split_and!; [done| |done|].
  - intros m b st.
    destruct (orders_serve_cases env {| Method := m; Path := "/orders"; Body := b |} st)
      as [E|E]; [|].
    + split; [|done]. unfold Orders.serve. cbn [Path Method].
      change (String.eqb "/orders" "/orders") with true. cbn match.
      destruct (String.eqb m "GET"); [done|].
      destruct (String.eqb m "POST"); [|done].
      cbn [fst]. rewrite H400. done.
    + exfalso. revert E. unfold Orders.serve. cbn [Path Method].
      change (String.eqb "/orders" "/orders") with true. cbn match.
      destruct (String.eqb m "GET"); [done|].
      destruct (String.eqb m "POST"); [|done].
      cbn [fst]. rewrite H400. done.
  - intros r st id o Ha Hl.
    by apply (getOrderByID_degraded env r st id o Orders.ErrNotFound).
Qed.

(** ** What changes a store, and what a service answers *)

Lemma incr_changes n : GoInt.incr n ≠ n.
Proof.
  unfold GoInt.incr, GoInt.wrap.
  change (2 ^ 63) with 9223372036854775808.
  change (2 ^ 64) with 18446744073709551616.
  intros H.
  pose proof (Z.div_mod (n + 1 + 9223372036854775808) 18446744073709551616
                ltac:(lia)) as E.
  set (q := (n + 1 + 9223372036854775808) / 18446744073709551616) in *.
  set (m := (n + 1 + 9223372036854775808) mod 18446744073709551616) in *.
  lia.
Qed.

Lemma createUser_changes r st :
  (Users.createUser r st).2 ≠ st ↔ Status (Users.createUser r st).1 = 201.
Proof.
  unfold Users.createUser. destruct (UserRecord.decode _); cbn.
  - split; [done|]. intros _ E. destruct st as [m n]. cbn in E.
    injection E as _ E. by apply incr_changes in E.
  - split; [done|]. intros H. vm_compute in H. discriminate H.
Qed.

Lemma createOrder_changes env r st :
  (Orders.createOrder env r st).2 ≠ st
  ↔ Status (Orders.createOrder env r st).1 = 201.
Proof.
  unfold Orders.createOrder.
  destruct (Orders.decode_order _); [destruct (Orders.GetUserByID _ _ _)|]; cbn.
  - split; [done|]. intros _ E. destruct st as [m n]. cbn in E.
    injection E as _ E. by apply incr_changes in E.
  - split; [done|]. intros H. vm_compute in H. discriminate H.
  - split; [done|]. intros H. vm_compute in H. discriminate H.
Qed.

Lemma users_201 r st :
  Status (Users.serve r st).1 = 201 →
  Method r = "POST" ∧ Path r = "/users"
  ∧ (Users.serve r st) = Users.createUser r st
  ∧ ∃ u, UserRecord.decode (Body r) = inl u.
Proof.
  unfold Users.serve.
  destruct (String.eqb (Path r) "/users") eqn:Ep.
  - destruct (String.eqb (Method r) "GET") eqn:Eg; [done|].
    destruct (String.eqb (Method r) "POST") eqn:Em; [|done].
    intros H. apply eqb_true in Ep, Em. split_and!; [done..|].
    revert H. unfold Users.createUser.
    destruct (UserRecord.decode _); [by eauto|done].
  - destruct (String.prefix _ _).
    + cbn [fst]. destruct (getUserByID_status r st) as [H|[H|H]]; rewrite H; done.
    + by destruct (String.eqb (Path r) "/health").
Qed.

Lemma orders_201 env r st :
  Status (Orders.serve env r st).1 = 201 →
  Method r = "POST" ∧ Path r = "/orders"
  ∧ (Orders.serve env r st) = Orders.createOrder env r st
  ∧ ∃ o u, Orders.decode_order (Body r) = inl o
           ∧ Orders.GetUserByID Orders.userClient (Orders.net env)
               (Orders.UserID o) = inl u.
Proof.
  unfold Orders.serve.
  destruct (String.eqb (Path r) "/orders") eqn:Ep.
  - destruct (String.eqb (Method r) "GET") eqn:Eg; [done|].
    destruct (String.eqb (Method r) "POST") eqn:Em; [|done].
    intros H. apply eqb_true in Ep, Em. split_and!; [done..|].
    revert H. unfold Orders.createOrder.
    destruct (Orders.decode_order _) as [o|]; [|done].
    destruct (Orders.GetUserByID _ _ _) eqn:E; [by eauto|done].
  - destruct (String.prefix _ _).
    + cbn [fst].
      destruct (getOrderByID_status env r st) as [H|[H|H]]; rewrite H; done.
    + by destruct (String.eqb (Path r) "/health").
Qed.

(** X5.  On either service the store after a request differs from the
    store before if and only if the response has status 201, and a 201 is
    only ever the answer to a POST on the collection path whose body
    decodes (and, for an order, whose owning user the client found): no GET,
    no other method and no other path changes the map or the counter. *)
Theorem X5_only_created_changes :
  (∀ r st,
      ((Users.serve r st).2 ≠ st ↔ Status (Users.serve r st).1 = 201)
      ∧ (Status (Users.serve r st).1 = 201 →
         Method r = "POST" ∧ Path r = "/users"
         ∧ ∃ u, UserRecord.decode (Body r) = inl u))
  ∧ (∀ env r st,
      ((Orders.serve env r st).2 ≠ st ↔ Status (Orders.serve env r st).1 = 201)
      ∧ (Status (Orders.serve env r st).1 = 201 →
         Method r = "POST" ∧ Path r = "/orders"
         ∧ ∃ o u, Orders.decode_order (Body r) = inl o
                  ∧ Orders.GetUserByID Orders.userClient (Orders.net env)
                      (Orders.UserID o) = inl u)).
Proof.
  split.
  - intros r st.
    split; [|intros H; by destruct (users_201 r st H) as (? & ? & _ & ?)].
    split.
    + intros Hne. by destruct (users_serve_cases r st).
    + intros H. destruct (users_201 r st H) as (_ & _ & E & _).
      rewrite E in *. by apply createUser_changes.
  - intros env r st.
    split; [|intros H; by destruct (orders_201 env r st H) as (? & ? & _ & ?)].
    split.
    + intros Hne. by destruct (orders_serve_cases env r st).
    + intros H. destruct (orders_201 env r st H) as (_ & _ & E & _).
      rewrite E in *. by apply createOrder_changes.
Qed.

Lemma createUser_status r st :
  Status (Users.createUser r st).1 = 201 ∨ Status (Users.createUser r st).1 = 400.
Proof. unfold Users.createUser. destruct (UserRecord.decode _); cbn; auto. Qed.

Lemma createOrder_status env r st :
  Status (Orders.createOrder env r st).1 = 201
  ∨ Status (Orders.createOrder env r st).1 = 400.
Proof.
  unfold Orders.createOrder.
  destruct (Orders.decode_order _); [destruct (Orders.GetUserByID _ _ _)|];
    cbn; auto.
Qed.

Example canonical_cases :
  canonical "/" = true ∧ canonical "/users" = true
  ∧ canonical "/users/" = true ∧ canonical "/users/1" = true
  ∧ canonical "/users/..." = true ∧ canonical "/.well-known" = true
  ∧ canonical "" = false ∧ canonical "users" = false
  ∧ canonical "/users//1" = false ∧ canonical "//users" = false
  ∧ canonical "/users/./1" = false ∧ canonical "/users/." = false
  ∧ canonical "/orders/../users" = false ∧ canonical "/orders/.." = false.
Proof. repeat split; reflexivity. Qed.

(** X6.  Every response of either service to a request whose path is
    canonical, that is a request the mux hands to a handler or answers with
    its own 404 instead of redirecting it, has one of the statuses 200, 201,
    400, 404 and 405: no handler ever answers with a server error, whatever
    the method, the body, the store and the peer. *)
Theorem X6_statuses :
  (∀ r st,
      canonical (Path r) = true →
      Status (Users.serve r st).1 ∈ [200; 201; 400; 404; 405])
  ∧ (∀ env r st,
      canonical (Path r) = true →
      Status (Orders.serve env r st).1 ∈ [200; 201; 400; 404; 405]).
Proof.
  split.
  - intros r st _. unfold Users.serve.
    repeat match goal with |- context [if ?c then _ else _] => destruct c end;
      cbn [fst]; try (cbn; set_solver).
    + destruct (createUser_status r st) as [->| ->]; set_solver.
    + destruct (getUserByID_status r st) as [->|[->| ->]]; set_solver.
  - intros env r st _. unfold Orders.serve.
    repeat match goal with |- context [if ?c then _ else _] => destruct c end;
      cbn [fst]; try (cbn; set_solver).
    + destruct (createOrder_status env r st) as [->| ->]; set_solver.
    + destruct (getOrderByID_status env r st) as [->|[->| ->]]; set_solver.
Qed.

(** ** The ids in use *)

Lemma users_dense_step r st :
  users_dense st → 1 <= Users.nextID st < GoInt.max →
  users_dense (Users.serve r st).2
  ∧ Users.nextID st <= Users.nextID (Users.serve r st).2 <= Users.nextID st + 1.
Proof.
  intros Hd Hb. destruct (users_serve_step r st) as [->|[u ->]]; [split; [done|lia]|].
  cbn. rewrite incr_below_max by (unfold GoInt.min; lia). split; [|lia].
  intros k. cbn. rewrite lookup_insert_is_Some, (Hd k). lia.
Qed.

Lemma orders_dense_step env r st :
  orders_dense st → 1 <= Orders.nextID st < GoInt.max →
  orders_dense (Orders.serve env r st).2
  ∧ Orders.nextID st <= Orders.nextID (Orders.serve env r st).2
    <= Orders.nextID st + 1.
Proof.
  intros Hd Hb.
  destruct (orders_serve_step env r st) as [->|[o ->]]; [split; [done|lia]|].
  cbn. rewrite incr_below_max by (unfold GoInt.min; lia). split; [|lia].
  intros k. cbn. rewrite lookup_insert_is_Some, (Hd k). lia.
Qed.

Lemma users_dense_run rs : ∀ st,
  users_dense st → 1 <= Users.nextID st →
  Users.nextID st + Z.of_nat (length rs) <= GoInt.max →
  users_dense (Users.run rs st).
Proof.
  induction rs as [|r rs IH]; intros st Hd Hlo Hhi; cbn [Users.run]; [done|].
  cbn [length] in Hhi.
  destruct (users_dense_step r st Hd) as [Hd' Hn]; [lia|].
  apply IH; [done|lia..].
Qed.

Lemma orders_dense_run rs : ∀ st,
  orders_dense st → 1 <= Orders.nextID st →
  Orders.nextID st + Z.of_nat (length rs) <= GoInt.max →
  orders_dense (Orders.run rs st).
Proof.
  induction rs as [|[env r] rs IH]; intros st Hd Hlo Hhi; cbn [Orders.run];
    [done|].
  cbn [length] in Hhi.
  destruct (orders_dense_step env r st Hd) as [Hd' Hn]; [lia|].
  apply IH; [done|lia..].
Qed.

Lemma users_init_dense : users_dense Users.init.
Proof.
  intros k. unfold Users.init. cbn.
  rewrite !lookup_insert_is_Some, lookup_empty, is_Some_alt. lia.
Qed.

Lemma orders_init_dense : orders_dense Orders.init.
Proof.
  intros k. unfold Orders.init. cbn.
  rewrite !lookup_insert_is_Some, lookup_empty, is_Some_alt. lia.
Qed.

(** X7.  In every run from start-up short enough for the counter to stay
    an [int], the ids in use are exactly 1, 2, ..., counter - 1, on both
    stores: ids are given out without gaps, and a request that is rejected
    uses none up. *)
Theorem X7_ids_without_gaps :
  (∀ rs, 3 + Z.of_nat (length rs) <= GoInt.max →
         users_dense (Users.run rs Users.init))
  ∧ (∀ rs, 3 + Z.of_nat (length rs) <= GoInt.max →
           orders_dense (Orders.run rs Orders.init)).
Proof.
  split; intros rs Hlen.
  - apply users_dense_run; [apply users_init_dense|cbn; lia|done].
  - apply orders_dense_run; [apply orders_init_dense|cbn; lia|done].
Qed.

(** ** Orders that are stored without a user *)

Lemma set_order_field_user o k v o' :
  key_is "user" k = false →
  Orders.set_order_field o k v = inl o' →
  Orders.User o' = Orders.User o.
Proof.
  intros Hk. unfold Orders.set_order_field. rewrite Hk.
  decode_step; intros [= <-] || intros [=]; done.
Qed.

Lemma store_members_user ms : ∀ o o',
  existsb (λ m, key_is "user" m.1) ms = false →
  store_members Orders.set_order_field ms o = inl o' →
  Orders.User o' = Orders.User o.
Proof.
  induction ms as [|[k v] ms IH]; intros o o'; cbn.
  - by intros _ [= <-].
  - intros [Hk Hms]%orb_false_iff.
    destruct (Orders.set_order_field o k v) as [o1|e] eqn:E; cbn; [|done].
    intros H. rewrite (IH _ _ Hms H).
    by apply (set_order_field_user o k v).
Qed.

Lemma decode_order_plain r o :
  plain r = true → Orders.decode_order (Body r) = inl o → Orders.User o = None.
Proof.
  unfold plain, Orders.decode_order, Decode, store_struct, mentions.
  destruct (Body r) as [e|j]; [done|]. destruct j; try done.
  - by intros _ [= <-].
  - intros Hm%negb_true_iff Hd. by rewrite (store_members_user _ _ _ Hm Hd).
Qed.

Lemma plain_step env r st :
  plain r = true → no_snapshot st → no_snapshot (Orders.serve env r st).2.
Proof.
  intros Hp Hst.
  destruct (decide (Status (Orders.serve env r st).1 = 201)) as [H|H].
  - destruct (orders_201 env r st H) as (_ & _ & -> & o & u & Hd & Hu).
    rewrite (createOrder_peer_ok _ _ _ _ _ Hd Hu). intros k o'. cbn.
    destruct (decide (Orders.nextID st = k)) as [<-|Hne].
    + rewrite lookup_insert_eq. intros [= <-]. cbn.
      by apply (decode_order_plain r).
    + rewrite lookup_insert_ne by done. apply Hst.
  - destruct (orders_serve_cases env r st) as [->|]; done.
Qed.

Lemma plain_run rs : ∀ st,
  Forall (λ er, plain er.2 = true) rs → no_snapshot st →
  no_snapshot (Orders.run rs st).
Proof.
  induction rs as [|[env r] rs IH]; intros st Hrs Hst; cbn [Orders.run]; [done|].
  inversion Hrs as [|? ? Hr Hrs']; subst.
  apply IH; [done|]. by apply plain_step.
Qed.

Lemma init_no_snapshot : no_snapshot Orders.init.
Proof.
  intros k o. unfold Orders.init. cbn.
  rewrite !lookup_insert. repeat case_decide; subst; try done;
    by intros [= <-].
Qed.

(** X9.  In every run from start-up in which no request body has a key
    selecting the [user] field, no stored order carries a user; an order
    fetched from such a store while the client returns an error goes out
    without a [user] member. *)
Theorem X9_no_snapshot_without_user_key rs :
  Forall (λ er, plain er.2 = true) rs →
  no_snapshot (Orders.run rs Orders.init)
  ∧ ∀ env r id o err,
      Strconv.Atoi (Strconv.drop 8 (Path r)) = Some id →
      Orders.orders (Orders.run rs Orders.init) !! id = Some o →
      Orders.GetUserByID Orders.userClient (Orders.net env) (Orders.UserID o)
      = inr err →
      ∃ j, Orders.getOrderByID env r (Orders.run rs Orders.init)
           = json_response 200 j
           ∧ has_member "user" j = false.
Proof.
  intros Hrs.
  assert (no_snapshot (Orders.run rs Orders.init)) as Hno
    by (apply plain_run; [done|apply init_no_snapshot]).
  split; [done|]. intros env r id o err Ha Hl Hp.
  rewrite (getOrderByID_degraded _ _ _ _ _ _ Ha Hl Hp).
  eexists. split; [reflexivity|].
  unfold Orders.encode_order. by rewrite (Hno _ _ Hl).
Qed.

(** ** A record is fetched as it was created *)

(** X11.  What create returns, fetch returns: after a successful create on
    the user service, fetch-by-id at the id of the created record answers
    200 with the very JSON the create answered with 201; on the order
    service the same holds when the client returns an error during the
    fetch, and when it returns a user the fetched order is the created one
    with that user as its snapshot. *)
Theorem X11_create_then_fetch :
  (∀ r st u m b,
      UserRecord.decode (Body r) = inl u →
      GoInt.in_range (Users.nextID st) = true →
      (Users.createUser r st).1
      = json_response 201 (UserRecord.encode (stored_user st u))
      ∧ (Users.serve
           {| Method := m; Path := "/users/" +:+ Strconv.Itoa (Users.nextID st);
              Body := b |} (Users.createUser r st).2).1
        = json_response 200 (UserRecord.encode (stored_user st u)))
  ∧ (∀ env r st o u env' m b,
      Orders.decode_order (Body r) = inl o →
      Orders.GetUserByID Orders.userClient (Orders.net env) (Orders.UserID o)
      = inl u →
      GoInt.in_range (Orders.nextID st) = true →
      (Orders.createOrder env r st).1
      = json_response 201 (Orders.encode_order (stored_order st o))
      ∧ (Orders.serve env'
           {| Method := m; Path := "/orders/" +:+ Strconv.Itoa (Orders.nextID st);
              Body := b |} (Orders.createOrder env r st).2).1
        = json_response 200
            (Orders.encode_order
               match Orders.GetUserByID Orders.userClient (Orders.net env')
                       (Orders.UserID o) with
               | inl user =>
                   {| Orders.ID := Orders.nextID st;
                      Orders.UserID := Orders.UserID o;
                      Orders.Product := Orders.Product o;
                      Orders.Quantity := Orders.Quantity o;
                      Orders.Status := Orders.Status o;
                      Orders.User := Some user |}
               | inr _ => stored_order st o
               end)).
Proof.
  split.
  - intros r st u m b Hd Hr. rewrite (createUser_ok _ _ _ Hd). split; [done|].
    rewrite users_fetch_printed by done. cbn. by rewrite lookup_insert_eq.
  - intros env r st o u env' m b Hd Hp Hr.
    rewrite (createOrder_peer_ok _ _ _ _ _ Hd Hp). split; [done|].
    rewrite orders_fetch_printed by done. cbn. by rewrite lookup_insert_eq.
Qed.

(** X12.  In every run from start-up short enough for the counter to stay
    an [int], a fetch-by-id that is answered 200 returns a record whose
    [id] is the id the path asked for, on both services. *)
Theorem X12_fetched_id_is_asked_id :
  (∀ rs r,
      3 + Z.of_nat (length rs) <= GoInt.max →
      Status (Users.getUserByID r (Users.run rs Users.init)) = 200 →
      ∃ id u,
        Strconv.Atoi (Strconv.drop 7 (Path r)) = Some id
        ∧ Users.getUserByID r (Users.run rs Users.init)
          = json_response 200 (UserRecord.encode u)
        ∧ UserRecord.ID u = id)
  ∧ (∀ rs env r,
      3 + Z.of_nat (length rs) <= GoInt.max →
      Status (Orders.getOrderByID env r (Orders.run rs Orders.init)) = 200 →
      ∃ id o,
        Strconv.Atoi (Strconv.drop 8 (Path r)) = Some id
        ∧ Orders.getOrderByID env r (Orders.run rs Orders.init)
          = json_response 200 (Orders.encode_order o)
        ∧ Orders.ID o = id).
Proof.
  split.
  - intros rs r Hlen.
    destruct (users_run_inv rs Users.init users_init_ok min_le_3)
      as (Hok & _ & _); [cbn; lia|].
    unfold Users.getUserByID. change (String.length "/users/") with 7%nat.
    destruct (Strconv.Atoi _) as [id|]; [|done].
    destruct (_ !! id) as [u|] eqn:E; [|done]. intros _.
    exists id, u. split_and!; [done..|]. by apply Hok in E as [? _].
  - intros rs env r Hlen.
    destruct (orders_run_inv rs Orders.init orders_init_ok min_le_3)
      as (Hok & _ & _); [cbn; lia|].
    unfold Orders.getOrderByID. change (String.length "/orders/") with 8%nat.
    destruct (Strconv.Atoi _) as [id|]; [|done].
    destruct (_ !! id) as [o|] eqn:E; [|done]. intros _.
    apply Hok in E as [E _].
    destruct (Orders.GetUserByID _ _ _); eexists id, _; split_and!; done.
Qed.

(** ** The list of users *)

Lemma insert_member_sorted m l :
  Sorted (λ a b, String.leb a.1 b.1 = true) l →
  Sorted (λ a b, String.leb a.1 b.1 = true) (Users.insert_member m l).
Proof.
  induction 1 as [|x l Hs IH Hhd]; cbn; [by repeat constructor|].
  destruct (String.leb m.1 x.1) eqn:E.
  - constructor; [by constructor|by constructor].
  - constructor; [done|].
    assert (String.leb x.1 m.1 = true) as Hxm
      by (destruct (String.leb_total x.1 m.1); congruence).
    destruct Hhd as [|y l Hxy]; cbn; [by constructor|].
    destruct (String.leb m.1 y.1); by constructor.
Qed.

Lemma sort_members_sorted l :
  Sorted (λ a b, String.leb a.1 b.1 = true) (Users.sort_members l).
Proof.
  induction l as [|x l IH]; cbn; [constructor|by apply insert_member_sorted].
Qed.

Lemma Itoa_inj a b : Strconv.Itoa a = Strconv.Itoa b → a = b.
Proof. apply pretty_Z_inj. Qed.

Lemma encode_user_inj u v : UserRecord.encode u = UserRecord.encode v → u = v.
Proof. destruct u, v. by intros [= -> -> ->]. Qed.

(** X10.  GET /users (the body of [getUsers]) is an object with exactly one
    member for each stored user and no other member: the keys are pairwise
    different, the member for id [k] with the encoding of [u] is there if
    and only if [u] is stored under [k], and the members are in the order
    of their keys as texts (so 10 comes before 2), whatever order the map is
    iterated in. *)
Theorem X10_users_list_members st :
  ∃ ms,
    Users.getUsers st = json_response 200 (JObj ms)
    ∧ NoDup ms.*1
    ∧ (∀ k u, (Strconv.Itoa k, UserRecord.encode u) ∈ ms
              ↔ Users.users st !! k = Some u)
    ∧ length ms = size (Users.users st)
    ∧ Sorted (λ a b, String.leb a.1 b.1 = true) ms.
Proof.
  eexists. split; [reflexivity|].
  pose proof (sort_members_perm (Users.member <$> map_to_list (Users.users st)))
    as Hp.
  split_and!.
  - rewrite Hp.
    assert ((Users.member <$> map_to_list (Users.users st)).*1
            = Strconv.Itoa <$> (map_to_list (Users.users st)).*1) as ->
      by (by rewrite <- !list_fmap_compose).
    apply NoDup_fmap_2; [exact Itoa_inj|]. apply NoDup_fst_map_to_list.
  - intros k u. rewrite Hp, list_elem_of_fmap. split.
    + intros ([k' u'] & Hm & Hin).
      pose proof (f_equal fst Hm) as Hk. pose proof (f_equal snd Hm) as Hu.
      cbn in Hk, Hu. apply Itoa_inj in Hk as ->.
      apply encode_user_inj in Hu as ->. by apply elem_of_map_to_list.
    + intros Hl. exists (k, u). split; [done|]. by apply elem_of_map_to_list.
  - by rewrite Hp, length_fmap, length_map_to_list.
  - apply sort_members_sorted.
Qed.

(** ** Every stored number is an [int] *)

Lemma wrap_in_range z : GoInt.in_range (GoInt.wrap z) = true.
Proof.
  unfold GoInt.in_range, GoInt.wrap, GoInt.min, GoInt.max.
  change (2 ^ 63) with 9223372036854775808.
  change (2 ^ 64) with 18446744073709551616.
  pose proof (Z.mod_pos_bound (z + 9223372036854775808) 18446744073709551616
                ltac:(lia)).
  apply andb_true_iff. split; apply Z.leb_le; lia.
Qed.

Lemma store_int_range target j old x :
  store_int target j old = inl x →
  GoInt.in_range old = true → GoInt.in_range x = true.
Proof.
  destruct j as [| |[z|]| | |]; cbn; try done.
  - by intros [= <-].
  - destruct (GoInt.in_range z) eqn:E; [|done]. by intros [= <-].
Qed.

Lemma store_members_inv {T : Type} (P : T → Prop)
    (set : T → string → json → T + DecodeError) :
  (∀ t k v t', P t → set t k v = inl t' → P t') →
  ∀ ms t t', P t → store_members set ms t = inl t' → P t'.
Proof.
  intros Hset. induction ms as [|[k v] ms IH]; intros t t' Ht; cbn.
  - by intros [= <-].
  - destruct (set t k v) as [t1|] eqn:E; cbn; [|done].
    apply IH. by apply (Hset t k v).
Qed.

Lemma set_field_ints path u k v u' :
  user_ints u = true → UserRecord.set_field path u k v = inl u' →
  user_ints u' = true.
Proof.
  unfold user_ints, UserRecord.set_field. intros Hu.
  destruct (key_is "id" k).
  { destruct (store_int _ v _) as [x|] eqn:E; cbn; [|done].
    intros [= <-]. cbn. by apply (store_int_range _ _ _ _ E). }
  decode_step; intros [= <-] || intros [=]; done.
Qed.

Lemma decode_user_ints b u :
  UserRecord.decode b = inl u → user_ints u = true.
Proof.
  unfold UserRecord.decode, Decode, store_struct.
  destruct b as [|j]; [done|]. destruct j; try done.
  - by intros [= <-].
  - apply (store_members_inv (λ u, user_ints u = true)); [|done].
    intros t k v t'. apply set_field_ints.
Qed.

Lemma set_order_field_ints o k v o' :
  order_ints o = true → Orders.set_order_field o k v = inl o' →
  order_ints o' = true.
Proof.
  unfold order_ints, Orders.set_order_field.
  intros [[[H1 H2]%andb_true_iff H3]%andb_true_iff H4]%andb_true_iff.
  repeat match goal with
         | |- context [if key_is ?f k then _ else _] =>
             destruct (key_is f k)
         end;
    try match goal with
        | |- context [store_int ?t v ?old] =>
            destruct (store_int t v old) as [x|] eqn:E; cbn [bind]; [|done];
            apply store_int_range in E; [|done]
        | |- context [store_string ?t v ?old] =>
            destruct (store_string t v old) as [x|] eqn:E; cbn [bind]; [|done]
        | |- context [Orders.store_user v ?old] =>
            destruct (Orders.store_user v old) as [x|] eqn:E; cbn [bind];
              [|done]
        end;
    intros [= <-]; cbn; rewrite ?H1, ?H2, ?H3, ?H4, ?E; try done.
  revert E. unfold Orders.store_user. destruct v; try done.
  - by intros [= <-].
  - destruct (store_members _ _ _) as [u|] eqn:Em; cbn [bind]; [|done].
    intros [= <-].
    apply (store_members_inv (λ u, user_ints u = true)) in Em; [done| |].
    + intros t k' v' t'. apply set_field_ints.
    + by destruct (Orders.User o).
Qed.

Lemma decode_order_ints b o :
  Orders.decode_order b = inl o → order_ints o = true.
Proof.
  unfold Orders.decode_order, Decode, store_struct.
  destruct b as [|j]; [done|]. destruct j; try done.
  - by intros [= <-].
  - apply (store_members_inv (λ o, order_ints o = true)); [|done].
    intros t k v t'. apply set_order_field_ints.
Qed.

Lemma users_ints_step r st : users_ints st → users_ints (Users.serve r st).2.
Proof.
  intros [Hn Hst]. destruct (users_serve_step r st) as [->|[u ->]]; [done|].
  split; [apply wrap_in_range|]. intros k u'. cbn.
  destruct (decide (Users.nextID st = k)) as [<-|Hne].
  - rewrite lookup_insert_eq. by intros [= <-].
  - rewrite lookup_insert_ne by done. apply Hst.
Qed.

Lemma orders_ints_step env r st :
  orders_ints st → orders_ints (Orders.serve env r st).2.
Proof.
  intros [Hn Hst].
  destruct (decide (Status (Orders.serve env r st).1 = 201)) as [H|H].
  - destruct (orders_201 env r st H) as (_ & _ & -> & o & u & Hd & Hu).
    rewrite (createOrder_peer_ok _ _ _ _ _ Hd Hu).
    split; [apply wrap_in_range|]. intros k o'. cbn.
    destruct (decide (Orders.nextID st = k)) as [<-|Hne].
    + rewrite lookup_insert_eq. intros [= <-]. split; [done|].
      apply decode_order_ints in Hd. revert Hd. unfold order_ints. cbn.
      rewrite Hn.
      by intros [[[_ ->]%andb_true_iff ->]%andb_true_iff ->]%andb_true_iff.
    + rewrite lookup_insert_ne by done. apply Hst.
  - by destruct (orders_serve_cases env r st) as [->|].
Qed.

Lemma users_ints_run rs : ∀ st, users_ints st → users_ints (Users.run rs st).
Proof.
  induction rs as [|r rs IH]; intros st Hst; cbn [Users.run]; [done|].
  by apply IH, users_ints_step.
Qed.

Lemma orders_ints_run rs : ∀ st, orders_ints st → orders_ints (Orders.run rs st).
Proof.
  induction rs as [|[env r] rs IH]; intros st Hst; cbn [Orders.run]; [done|].
  by apply IH, orders_ints_step.
Qed.

Lemma users_init_ints : users_ints Users.init.
Proof.
  split; [done|]. intros k u. unfold Users.init. cbn.
  rewrite !lookup_insert. repeat case_decide; subst; try done;
    by intros [= <-].
Qed.

Lemma orders_init_ints : orders_ints Orders.init.
Proof.
  split; [done|]. intros k o. unfold Orders.init. cbn.
  rewrite !lookup_insert. repeat case_decide; subst; try done;
    by intros [= <-].
Qed.

(** X13.  Whatever requests arrive, in whatever number, the counter, the
    keys and the [int] fields of every stored record of either service
    hold values of the 64-bit [int], also after the counter has wrapped: a
    number the decoder cannot fit into an [int] is rejected, never
    stored. *)
Theorem X13_stored_numbers_are_ints :
  (∀ rs, users_ints (Users.run rs Users.init))
  ∧ (∀ rs, orders_ints (Orders.run rs Orders.init))
  ∧ (∀ b u, UserRecord.decode b = inl u → user_ints u = true)
  ∧ (∀ b o, Orders.decode_order b = inl o → order_ints o = true).
Proof.
  split_and!.
  - intros rs. apply users_ints_run, users_init_ints.
  - intros rs. apply orders_ints_run, orders_init_ints.
  - apply decode_user_ints.
  - apply decode_order_ints.
Qed.

(** ** The two services together *)

(** X14.  The order service in front of a user service.  Let the user
    service have served any requests, and let the network carry its answer
    to the client's lookup.  Then POST /orders with a body that decodes is
    answered 201 and stored when the owning user is in the user store, and
    is answered 400 with the not-found text, the store kept, when it is
    not; and an order that is fetched goes out with the user that the user
    store holds for it, or as it is stored when the user store holds
    none. *)
Theorem X14_orders_over_users env urs :
  (∀ id, carries (Orders.net env)
           (Orders.BaseURL Orders.userClient +:+ lookup_path id)
           (Users.serve (lookup id) (Users.run urs Users.init)).1) →
  (∀ r st o,
      Orders.decode_order (Body r) = inl o →
      Orders.createOrder env r st
      = match Users.users (Users.run urs Users.init) !! Orders.UserID o with
        | Some _ =>
            (json_response 201 (Orders.encode_order (stored_order st o)),
             {| Orders.orders :=
                  <[Orders.nextID st := stored_order st o]> (Orders.orders st);
                Orders.nextID := GoInt.incr (Orders.nextID st) |})
        | None =>
            (Error "User not found or service unavailable: user not found" 400,
             st)
        end)
  ∧ (∀ ors r id o,
      Strconv.Atoi (Strconv.drop 8 (Path r)) = Some id →
      Orders.orders (Orders.run ors Orders.init) !! id = Some o →
      Orders.getOrderByID env r (Orders.run ors Orders.init)
      = json_response 200
          (Orders.encode_order
             match Users.users (Users.run urs Users.init) !! Orders.UserID o with
             | Some user =>
                 {| Orders.ID := Orders.ID o; Orders.UserID := Orders.UserID o;
                    Orders.Product := Orders.Product o;
                    Orders.Quantity := Orders.Quantity o;
                    Orders.Status := Orders.Status o;
                    Orders.User := Some user |}
             | None => o
             end)).
Proof.
  intros Hnet.
  assert (∀ id, GoInt.in_range id = true →
            Orders.GetUserByID Orders.userClient (Orders.net env) id
            = match Users.users (Users.run urs Users.init) !! id with
              | Some u => inl u
              | None => inr Orders.ErrNotFound
              end) as Hpeer.
  { intros id Hr. apply client_of_user_service; [done| |apply Hnet].
    intros u Hu. by apply (users_ints_run urs _ users_init_ints) in Hu as [_ ?]. }
  split.
  - intros r st o Hd.
    assert (GoInt.in_range (Orders.UserID o) = true) as Hr.
    { apply decode_order_ints in Hd. revert Hd. unfold order_ints.
      by intros [[[_ ?]%andb_true_iff _]%andb_true_iff _]%andb_true_iff. }
    specialize (Hpeer _ Hr).
    destruct (Users.users _ !! Orders.UserID o) as [u|].
    + by rewrite (createOrder_peer_ok _ _ _ _ _ Hd Hpeer).
    + by rewrite (createOrder_peer_error _ _ _ _ _ Hd Hpeer).
  - intros ors r id o Ha Hl.
    assert (GoInt.in_range (Orders.UserID o) = true) as Hr.
    { apply (orders_ints_run ors _ orders_init_ints) in Hl as [_ Hl].
      revert Hl. unfold order_ints.
      by intros [[[_ ?]%andb_true_iff _]%andb_true_iff _]%andb_true_iff. }
    specialize (Hpeer _ Hr).
    destruct (Users.users _ !! Orders.UserID o) as [u|].
    + by rewrite (getOrderByID_enriched _ _ _ _ _ _ Ha Hl Hpeer).
    + by rewrite (getOrderByID_degraded _ _ _ _ _ _ Ha Hl Hpeer).
Qed.

(** ** The further theorems at concrete requests *)

Lemma carries_deliver net url resp : net url = deliver resp → carries net url resp.
Proof.
  intros H. eexists. split; [exact H|]. by intros j ->.
Qed.

(** X1 at id 2. *)
Lemma X1_witness :
  GoInt.in_range 2 = true
  ∧ Users.serve {| Method := "GET"; Path := "/users/" +:+ Strconv.Itoa 2;
                   Body := Unreadable "EOF" |} Users.init
    = (match Users.users Users.init !! 2 with
       | Some user => json_response 200 (UserRecord.encode user)
       | None => Error "User not found" 404
       end, Users.init).
Proof.
  split; [reflexivity|].
  exact (proj1 (X1_fetch_at_printed_id 2 eq_refl) "GET" (Unreadable "EOF")
           Users.init).
Defined.

(** X2 at the user and at the order of the scenario of C1. *)
Lemma X2_witness :
  user_ints {| UserRecord.ID := 9; UserRecord.Name := "Mallory";
               UserRecord.Email := "" |} = true
  ∧ UserRecord.decode
      (Parsed (UserRecord.encode
                 {| UserRecord.ID := 9; UserRecord.Name := "Mallory";
                    UserRecord.Email := "" |}))
    = inl {| UserRecord.ID := 9; UserRecord.Name := "Mallory";
             UserRecord.Email := "" |}
  ∧ order_ints Orders.zero_order = true
  ∧ Orders.decode_order (Parsed (Orders.encode_order Orders.zero_order))
    = inl Orders.zero_order.
Proof.
  pose proof X2_decode_encode as [Hu Ho].
  split; [reflexivity|].
  split; [exact (Hu {| UserRecord.ID := 9; UserRecord.Name := "Mallory";
                       UserRecord.Email := "" |} eq_refl)|].
  split; [reflexivity|]. exact (Ho Orders.zero_order eq_refl).
Defined.

(** X3 at the user service of start-up and the lookup of user 1. *)
Lemma X3_witness :
  GoInt.in_range 1 = true
  ∧ (∀ u, Users.users Users.init !! 1 = Some u → user_ints u = true)
  ∧ carries (Cases.users_at "http://localhost:8081" Users.init)
      (Orders.BaseURL Cases.client_8081 +:+ lookup_path 1)
      (Users.serve (lookup 1) Users.init).1
  ∧ Orders.GetUserByID Cases.client_8081
      (Cases.users_at "http://localhost:8081" Users.init) 1
    = match Users.users Users.init !! 1 with
      | Some u => inl u
      | None => inr Orders.ErrNotFound
      end.
Proof.
  assert (∀ u, Users.users Users.init !! 1 = Some u → user_ints u = true) as H2.
  { intros u H. vm_compute in H. injection H as <-. reflexivity. }
  assert (carries (Cases.users_at "http://localhost:8081" Users.init)
            (Orders.BaseURL Cases.client_8081 +:+ lookup_path 1)
            (Users.serve (lookup 1) Users.init).1) as H3
    by (apply carries_deliver; reflexivity).
  split; [reflexivity|]. split; [exact H2|]. split; [exact H3|].
  exact (X3_client_of_user_service Cases.client_8081 _ Users.init 1
           eq_refl H2 H3).
Defined.

(** X4 at the order service of start-up answering at its own address. *)
Lemma X4_witness :
  (∀ id, carries
           (Orders.net (Cases.env_of
              (Cases.orders_at "http://localhost:8082" Orders.init)))
           (Orders.BaseURL Orders.userClient +:+ lookup_path id)
           (Orders.serve Scenario.peer_down (lookup id) Orders.init).1)
  ∧ (∀ id, Orders.GetUserByID Orders.userClient
             (Orders.net (Cases.env_of
                (Cases.orders_at "http://localhost:8082" Orders.init))) id
           = inr Orders.ErrNotFound)
  ∧ (∀ r st, Status (Orders.createOrder
                       (Cases.env_of
                          (Cases.orders_at "http://localhost:8082" Orders.init))
                       r st).1 = 400).
Proof.
  assert (∀ id, carries
            (Orders.net (Cases.env_of
               (Cases.orders_at "http://localhost:8082" Orders.init)))
            (Orders.BaseURL Orders.userClient +:+ lookup_path id)
            (Orders.serve Scenario.peer_down (lookup id) Orders.init).1) as H
    by (intros id; apply carries_deliver; reflexivity).
  split; [exact H|].
  pose proof (proj2 (proj2 X4_client_at_own_address) _ _ _ H)
    as (H1 & _ & H3 & _).
  split; [exact H1|exact H3].
Defined.

(** X5 at the create of a user on the store of start-up. *)
Lemma X5_witness :
  Status (Users.serve (Scenario.post "/users" Cases.bob) Users.init).1 = 201
  ∧ (Users.serve (Scenario.post "/users" Cases.bob) Users.init).2 ≠ Users.init
  ∧ Method (Scenario.post "/users" Cases.bob) = "POST".
Proof.
  pose proof (proj1 X5_only_created_changes
                (Scenario.post "/users" Cases.bob) Users.init) as [Hiff H201].
  assert (Status (Users.serve (Scenario.post "/users" Cases.bob)
                    Users.init).1 = 201) as H by reflexivity.
  split; [exact H|]. split; [exact (proj2 Hiff H)|exact (proj1 (H201 H))].
Defined.

(** X6 at a fetch with a malformed id and at a create refused for the
    peer. *)
Lemma X6_witness :
  canonical (Path (Scenario.get "/users/1x")) = true
  ∧ Status (Users.serve (Scenario.get "/users/1x") Users.init).1
    ∈ [200; 201; 400; 404; 405]
  ∧ canonical (Path (Scenario.post "/orders" Scenario.for_user_1)) = true
  ∧ Status (Orders.serve Scenario.peer_down
              (Scenario.post "/orders" Scenario.for_user_1) Orders.init).1
    ∈ [200; 201; 400; 404; 405].
Proof.
  pose proof X6_statuses as [Hu Ho].
  split; [reflexivity|].
  split; [exact (Hu (Scenario.get "/users/1x") Users.init eq_refl)|].
  split; [reflexivity|].
  exact (Ho Scenario.peer_down (Scenario.post "/orders" Scenario.for_user_1)
           Orders.init eq_refl).
Defined.

(** X7 at one create on each store. *)
Lemma X7_witness :
  3 + Z.of_nat (length [Scenario.post "/users" Cases.bob]) <= GoInt.max
  ∧ users_dense (Users.run [Scenario.post "/users" Cases.bob] Users.init)
  ∧ 3 + Z.of_nat (length [(Scenario.peer_up,
                           Scenario.post "/orders" Scenario.for_user_1)])
    <= GoInt.max
  ∧ orders_dense
      (Orders.run [(Scenario.peer_up,
                    Scenario.post "/orders" Scenario.for_user_1)] Orders.init).
Proof.
  pose proof X7_ids_without_gaps as [Hu Ho].
  assert (3 + Z.of_nat (length [Scenario.post "/users" Cases.bob])
          <= GoInt.max) as H1 by (vm_compute; congruence).
  assert (3 + Z.of_nat (length [(Scenario.peer_up,
                                 Scenario.post "/orders" Scenario.for_user_1)])
          <= GoInt.max) as H2 by (vm_compute; congruence).
  split; [exact H1|]. split; [exact (Hu _ H1)|].
  split; [exact H2|exact (Ho _ H2)].
Defined.

(** X9 at the create of an order for user 1 without a [user] member. *)
Lemma X9_witness :
  Forall (λ er : Orders.Env * Request, plain er.2 = true)
    [(Scenario.peer_up, Scenario.post "/orders" Scenario.for_user_1)]
  ∧ no_snapshot
      (Orders.run [(Scenario.peer_up,
                    Scenario.post "/orders" Scenario.for_user_1)] Orders.init).
Proof.
  assert (Forall (λ er : Orders.Env * Request, plain er.2 = true)
            [(Scenario.peer_up, Scenario.post "/orders" Scenario.for_user_1)])
    as H by (repeat constructor).
  split; [exact H|].
  exact (proj1 (X9_no_snapshot_without_user_key _ H)).
Defined.

(** X11 at the create of a user on the store of start-up. *)
Lemma X11_witness :
  UserRecord.decode (Body (Scenario.post "/users" Cases.bob))
  = inl {| UserRecord.ID := 0; UserRecord.Name := "Bob";
           UserRecord.Email := "bob@example.com" |}
  ∧ GoInt.in_range (Users.nextID Users.init) = true
  ∧ (Users.serve
       {| Method := "GET";
          Path := "/users/" +:+ Strconv.Itoa (Users.nextID Users.init);
          Body := Unreadable "EOF" |}
       (Users.createUser (Scenario.post "/users" Cases.bob) Users.init).2).1
    = json_response 200
        (UserRecord.encode
           (stored_user Users.init
              {| UserRecord.ID := 0; UserRecord.Name := "Bob";
                 UserRecord.Email := "bob@example.com" |})).
Proof.
  split; [reflexivity|]. split; [reflexivity|].
  exact (proj2 (proj1 X11_create_then_fetch
                  (Scenario.post "/users" Cases.bob) Users.init _ "GET"
                  (Unreadable "EOF") eq_refl eq_refl)).
Defined.

(** X12 at the fetch of user 3 after one create. *)
Lemma X12_witness :
  3 + Z.of_nat (length [Scenario.post "/users" Cases.bob]) <= GoInt.max
  ∧ Status (Users.getUserByID (Scenario.get "/users/3")
              (Users.run [Scenario.post "/users" Cases.bob] Users.init)) = 200
  ∧ ∃ id u,
      Strconv.Atoi (Strconv.drop 7 (Path (Scenario.get "/users/3"))) = Some id
      ∧ Users.getUserByID (Scenario.get "/users/3")
          (Users.run [Scenario.post "/users" Cases.bob] Users.init)
        = json_response 200 (UserRecord.encode u)
      ∧ UserRecord.ID u = id.
Proof.
  assert (3 + Z.of_nat (length [Scenario.post "/users" Cases.bob])
          <= GoInt.max) as H1 by (vm_compute; congruence).
  split; [exact H1|]. split; [reflexivity|].
  exact (proj1 X12_fetched_id_is_asked_id _ (Scenario.get "/users/3") H1
           eq_refl).
Defined.

(** X13 at the payload of C1. *)
Lemma X13_witness :
  Orders.decode_order (Parsed Scenario.with_snapshot)
  = inl {| Orders.ID := 77; Orders.UserID := 1; Orders.Product := "Pen";
           Orders.Quantity := 1; Orders.Status := "pending";
           Orders.User := Some {| UserRecord.ID := 9;
                                  UserRecord.Name := "Mallory";
                                  UserRecord.Email := "" |} |}
  ∧ order_ints
      {| Orders.ID := 77; Orders.UserID := 1; Orders.Product := "Pen";
         Orders.Quantity := 1; Orders.Status := "pending";
         Orders.User := Some {| UserRecord.ID := 9;
                                UserRecord.Name := "Mallory";
                                UserRecord.Email := "" |} |} = true.
Proof.
  split; [reflexivity|].
  exact (proj2 (proj2 (proj2 X13_stored_numbers_are_ints))
           (Parsed Scenario.with_snapshot) _ eq_refl).
Defined.

(** X14 at the user service of start-up answering at the client's
    address, and an order for user 1. *)
Lemma X14_witness :
  (∀ id, carries
           (Orders.net (Cases.env_of
              (Cases.users_at "http://localhost:8082" Users.init)))
           (Orders.BaseURL Orders.userClient +:+ lookup_path id)
           (Users.serve (lookup id) (Users.run [] Users.init)).1)
  ∧ Orders.decode_order (Body (Scenario.post "/orders" Scenario.for_user_1))
    = inl {| Orders.ID := 0; Orders.UserID := 1; Orders.Product := "";
             Orders.Quantity := 0; Orders.Status := ""; Orders.User := None |}
  ∧ Status (Orders.createOrder
              (Cases.env_of (Cases.users_at "http://localhost:8082" Users.init))
              (Scenario.post "/orders" Scenario.for_user_1) Orders.init).1
    = 201.
Proof.
  assert (∀ id, carries
            (Orders.net (Cases.env_of
               (Cases.users_at "http://localhost:8082" Users.init)))
            (Orders.BaseURL Orders.userClient +:+ lookup_path id)
            (Users.serve (lookup id) (Users.run [] Users.init)).1) as H
    by (intros id; apply carries_deliver; reflexivity).
  split; [exact H|]. split; [reflexivity|].
  rewrite (proj1 (X14_orders_over_users _ [] H)
             (Scenario.post "/orders" Scenario.for_user_1) Orders.init _
             eq_refl).
  reflexivity.
Defined.
